(** * Yacht propulsion selector: the sizing and selection engine of [app.py]

    A shallow embedding of [estimate_total_power_kw], [choose_target_prop_rpm],
    [nearest_ratio] and [select_propulsion], and the properties of the
    specification that concern them.

    Numbers.  Python floats and ints are read as exact rationals ([Q]): the
    arithmetic is the idealised one, without rounding, overflow, infinities
    or NaN.  Numeric equality is [Qeq] ([==]).  The one operation of the
    source that has no rational definition, [D ** (2/3)], is a variable of the
    development ([pow_two_thirds]); every theorem holds whatever that function
    is.

    Text.  Strings are ASCII; [lower] and [strip] are Python's [str.lower]
    and [str.strip] on that range.

    Libraries.  The sort of the ranked frame is pandas' [sort_values]; it is
    a variable too ([sort_values]), assumed to return a descending
    permutation where a property needs it.

    State.  The two catalogs are module globals of the source;
    [select_propulsion] is written in state-passing style over them, and the
    properties hold for any contents, the shipped ones included. *)

From Stdlib Require Import QArith Qabs Qminmax Qround ZArith List String Ascii Bool.
From Stdlib Require Import Lia Lqa Permutation Sorted.
Import ListNotations.

Local Open Scope Q_scope.

(** ** Outcomes of a call *)

(** The exceptions the engine can raise.  [ValueError] is the source's
    "InvalidInput" (line 96); it is also what [min] raises on an empty
    sequence.  [ZeroDivisionError] is raised by [/] on a zero divisor. *)
Inductive exn : Type :=
| ValueError
| ZeroDivisionError.

(** [Ok a]: the call returns [a].  [Raise e]: it raises [e] and returns
    nothing.  [Unmodelled]: the call leaves the fragment embedded here (a
    complex number reaches the pandas comparisons). *)
Inductive result (A : Type) : Type :=
| Ok (a : A)
| Raise (e : exn)
| Unmodelled.

Arguments Ok {A} a.
Arguments Raise {A} e.
Arguments Unmodelled {A}.

Definition bind {A B : Type} (m : result A) (k : A -> result B) : result B :=
  match m with
  | Ok a => k a
  | Raise e => Raise e
  | Unmodelled => Unmodelled
  end.

Notation "x <- m ;; k" := (bind m (fun x => k))
  (at level 61, m at next level, right associativity).

(** A Python number as the power model produces it: a float, or the complex
    number that [**] returns for a negative base and a fractional exponent. *)
Inductive pynum : Type :=
| PyFloat (q : Q)
| PyComplex.

(** [a / b] on floats. *)
Definition py_div (a b : Q) : result Q :=
  if Qeq_bool b 0 then Raise ZeroDivisionError else Ok (a / b).

(** [int(x)]: truncation toward zero. *)
Definition py_int (x : Q) : Z := Z.quot (Qnum x) (Zpos (Qden x)).

(** [round(x)]: to the nearest integer, halves to the even one. *)
Definition py_round (x : Q) : Z :=
  let f := Qfloor x in
  let r := x - inject_Z f in
  match Qcompare r (1 # 2) with
  | Lt => f
  | Gt => (f + 1)%Z
  | Eq => if Z.even f then f else (f + 1)%Z
  end.

(** [round(x, 1)]. *)
Definition py_round1 (x : Q) : Q := inject_Z (py_round (x * 10)) / 10.

(** ** Strings *)

Local Open Scope char_scope.

(** [str.isspace] on one ASCII character. *)
Definition is_space (c : ascii) : bool :=
  let n := nat_of_ascii c in
  ((9 <=? n) && (n <=? 13) || (28 <=? n) && (n <=? 32))%nat.

Definition lower_ascii (c : ascii) : ascii :=
  let n := nat_of_ascii c in
  if ((65 <=? n) && (n <=? 90))%nat then ascii_of_nat (n + 32) else c.

Local Open Scope string_scope.
Local Open Scope list_scope.

Fixpoint lower (s : string) : string :=
  match s with
  | EmptyString => EmptyString
  | String c t => String (lower_ascii c) (lower t)
  end.

Fixpoint lstrip (s : string) : string :=
  match s with
  | EmptyString => EmptyString
  | String c t => if is_space c then lstrip t else s
  end.

Fixpoint rstrip (s : string) : string :=
  match s with
  | EmptyString => EmptyString
  | String c t =>
      match rstrip t with
      | EmptyString => if is_space c then EmptyString else String c EmptyString
      | t' => String c t'
      end
  end.

Definition strip (s : string) : string := rstrip (lstrip s).

(** [x in names] for a list of strings. *)
Definition str_in (x : string) (names : list string) : bool :=
  existsb (String.eqb x) names.

(** ** Inputs (lines 38-49) *)

Record BoatSpecs : Type := {
  hull_type : string;
  displacement_tonnes : Q;
  target_speed_kn : Q;
  shafts : Z;
  fuel : string;
  budget_usd : Q;
  max_engine_length_mm : Q;
  max_engine_weight_kg : Q;
  desired_prop_rpm : option Z;
  power_margin : Q
}.

Definition kw_to_hp (kw : Q) : Q := kw * (134102209 # 100000000).

Definition hp_to_kw (hp : Q) : Q := hp / (134102209 # 100000000).

(** The spellings line 91 and line 110 accept for the blended regime. *)
Definition semi_names : list string :=
  ["semi-displacement"; "semi"; "semi displacement"].

(** [clamp((V - 12) / (30 - 12), 0, 1)], written as line 93 writes it. *)
Definition blend_factor (V : Q) : Q :=
  Qmin (Qmax ((V - 12) / (30 - 12)) 0) 1.

(** ** Catalogs (lines 16-33) *)

(** One tuple of [ENGINE_CATALOG]; [engine_fuel] is its [fuel] column. *)
Record Engine : Type := {
  engine_model : string;
  manufacturer : string;
  power_kw : Q;
  rated_rpm : Q;
  dry_weight_kg : Q;
  engine_fuel : string;
  length_mm : Q;
  width_mm : Q;
  height_mm : Q;
  price_usd_est : Q
}.

(** One tuple of [GEARBOX_CATALOG], named as line 153 unpacks it. *)
Record Gearbox : Type := {
  gb_name : string;
  ratios : list Q;
  gb_kw_max : Q;
  gb_rpm_max : Q;
  gb_price : Q
}.

(** The module's global variables. *)
Record Globals : Type := {
  ENGINE_CATALOG : list Engine;
  GEARBOX_CATALOG : list Gearbox
}.

Definition engine (name maker : string) (kw rpm kg : Z) (fu : string)
    (len wid hei price : Z) : Engine :=
  {| engine_model := name; manufacturer := maker; power_kw := inject_Z kw;
     rated_rpm := inject_Z rpm; dry_weight_kg := inject_Z kg; engine_fuel := fu;
     length_mm := inject_Z len; width_mm := inject_Z wid;
     height_mm := inject_Z hei; price_usd_est := inject_Z price |}.

Definition gearbox (name : string) (rs : list Q) (kw rpm price : Z) : Gearbox :=
  {| gb_name := name; ratios := rs; gb_kw_max := inject_Z kw;
     gb_rpm_max := inject_Z rpm; gb_price := inject_Z price |}.

(** The catalogs as the file ships them. *)
Definition shipped : Globals :=
  {| ENGINE_CATALOG :=
       [ engine "D6-480" "Volvo Penta" 353 3500 900 "diesel" 1290 750 900 75000;
         engine "D8-600" "Volvo Penta" 441 3000 1200 "diesel" 1500 850 980 98000;
         engine "C12.9" "Caterpillar" 745 2300 1550 "diesel" 1700 900 1200 165000;
         engine "QSB6.7" "Cummins" 410 3000 650 "diesel" 1200 700 900 65000;
         engine "QSC8.3" "Cummins" 600 2600 950 "diesel" 1350 760 980 92000;
         engine "6LY-440" "Yanmar" 324 3300 620 "diesel" 1100 650 820 52000;
         engine "12V2000" "MTU" 1200 2450 2300 "diesel" 2300 1100 1400 300000;
         engine "8V2000" "MTU" 900 2450 1900 "diesel" 2100 1050 1350 240000 ];
     GEARBOX_CATALOG :=
       [ gearbox "ZF 45A" [3 # 2; 7 # 4; 2; 5 # 2; 3] 600 3500 18000;
         gearbox "ZF 63A" [3 # 2; 7 # 4; 2; 5 # 2; 3; 7 # 2] 1000 3000 30000;
         gearbox "Twin Disc MGX" [3 # 2; 2; 5 # 2; 3; 7 # 2; 4] 1200 3500 35000 ] |}.

(** ** Results *)

(** One row of the ranked frame (lines 171-186), under the keys of the
    source's dict; [engine_name], [gearbox_name] and [target_rpm] are its
    [engine], [gearbox] and [target_prop_rpm] columns. *)
Record Row : Type := {
  engine_name : string;
  engine_power_kw : Q;
  engine_power_hp : Q;
  engine_rated_rpm : Z;
  engine_weight_kg : Z;
  engine_length_mm : Z;
  gearbox_name : string;
  gear_ratio : Q;
  target_rpm : Z;
  achieved_prop_rpm : Z;
  per_shaft_kw_required : Q;
  power_margin_pct : Q;
  price_est_usd : Z;
  score : Q
}.

(** The frame [select_propulsion] returns first: the one-row frame of lines
    139-144, the one-row frame of lines 190-193, or the ranked rows. *)
Inductive DataFrame : Type :=
| NoEngineMatch (status : string)
    (total_required_kw_est per_shaft_kw_required_with_margin : Q) (hint : string)
| NoGearboxMatch (status hint : string)
| Ranked (rows : list Row).

(** The returned tuple: the frame, [total_kw], [total_kw_with_margin],
    [per_shaft_kw_req], [target_prop_rpm]. *)
Definition Selection : Type := (DataFrame * Q * Q * Q * Z)%type.

(** State passing over the module's globals, with the outcome of the call. *)
Definition M (A : Type) : Type := Globals -> result A * Globals.

Definition ret {A : Type} (a : A) : M A := fun g => (Ok a, g).

Definition lift {A : Type} (r : result A) : M A := fun g => (r, g).

Definition bindM {A B : Type} (m : M A) (k : A -> M B) : M B :=
  fun g =>
    match m g with
    | (Ok a, g') => k a g'
    | (Raise e, g') => (Raise e, g')
    | (Unmodelled, g') => (Unmodelled, g')
    end.

Notation "x <-- m ;; k" := (bindM m (fun x => k))
  (at level 61, m at next level, right associativity).

Definition read_engines : M (list Engine) := fun g => (Ok (ENGINE_CATALOG g), g).

Definition read_gearboxes : M (list Gearbox) :=
  fun g => (Ok (GEARBOX_CATALOG g), g).

(** [a > b] on floats. *)
Definition Qgt_bool (a b : Q) : bool := negb (Qle_bool a b).

(** [min(x :: rest, key=key)] with [best] the first minimal element so far:
    a later element replaces it only when its key is strictly smaller. *)
Fixpoint min_by_key {A : Type} (key : A -> Q) (best : A) (rest : list A) : A :=
  match rest with
  | [] => best
  | x :: t =>
      if Qlt_le_dec (key x) (key best) then min_by_key key x t
      else min_by_key key best t
  end.

(** [nearest_ratio] (lines 116-117); [min] of an empty list raises. *)
Definition nearest_ratio (ratio : Q) (options : list Q) : result Q :=
  match options with
  | [] => Raise ValueError
  | x :: t => Ok (min_by_key (fun x => Qabs (x - ratio)) x t)
  end.

(** The mask of lines 130-136 on one engine. *)
Definition engine_passes (spec : BoatSpecs) (per_shaft_kw_req : Q) (e : Engine)
    : bool :=
  String.eqb (lower (engine_fuel e)) (lower (fuel spec))
  && Qle_bool per_shaft_kw_req (power_kw e)
  && Qle_bool (length_mm e) (max_engine_length_mm spec)
  && Qle_bool (dry_weight_kg e) (max_engine_weight_kg spec)
  && Qle_bool (price_usd_est e) (budget_usd spec).

(** The test of line 154: the gearbox cannot take the engine. *)
Definition gearbox_skipped (e : Engine) (gb : Gearbox) : bool :=
  Qgt_bool (power_kw e) (gb_kw_max gb) || Qgt_bool (rated_rpm e) (gb_rpm_max gb).

(** The body of the inner loop for a gearbox that is not skipped
    (lines 157-186). *)
Definition pair_row (spec : BoatSpecs) (per_shaft_kw_req : Q)
    (target_prop_rpm : Z) (ideal_ratio : Q) (e : Engine) (gb : Gearbox)
    : result Row :=
  let engine_kw := power_kw e in
  let engine_rpm := rated_rpm e in
  chosen_ratio <- nearest_ratio ideal_ratio (ratios gb) ;;
  achieved <- py_div engine_rpm chosen_ratio ;;
  margin <- py_div (engine_kw - per_shaft_kw_req) per_shaft_kw_req ;;
  ratio_error <- py_div (Qabs (chosen_ratio - ideal_ratio)) ideal_ratio ;;
  let total_price_est := price_usd_est e + gb_price gb in
  let sc :=
    (55 # 100) * Qmin margin 1
    - (35 # 100) * ratio_error
    - (10 # 100) * (total_price_est / Qmax (budget_usd spec) 1) in
  Ok {| engine_name := (manufacturer e ++ " " ++ engine_model e)%string;
        engine_power_kw := py_round1 engine_kw;
        engine_power_hp := inject_Z (py_round (kw_to_hp engine_kw));
        engine_rated_rpm := py_int engine_rpm;
        engine_weight_kg := py_int (dry_weight_kg e);
        engine_length_mm := py_int (length_mm e);
        gearbox_name := gb_name gb;
        gear_ratio := chosen_ratio;
        target_rpm := target_prop_rpm;
        achieved_prop_rpm := py_round achieved;
        per_shaft_kw_required := py_round1 per_shaft_kw_req;
        power_margin_pct := py_round1 (100 * margin);
        price_est_usd := py_round total_price_est;
        score := sc |}.

(** The inner loop (lines 153-186) for one engine, in catalog order. *)
Fixpoint gearbox_loop (spec : BoatSpecs) (per_shaft_kw_req : Q)
    (target_prop_rpm : Z) (ideal_ratio : Q) (e : Engine) (gbs : list Gearbox)
    : result (list Row) :=
  match gbs with
  | [] => Ok []
  | gb :: rest =>
      if gearbox_skipped e gb then
        gearbox_loop spec per_shaft_kw_req target_prop_rpm ideal_ratio e rest
      else
        r <- pair_row spec per_shaft_kw_req target_prop_rpm ideal_ratio e gb ;;
        rs <- gearbox_loop spec per_shaft_kw_req target_prop_rpm ideal_ratio e rest ;;
        Ok (r :: rs)
  end.

(** The outer loop (lines 147-186) over the filtered engines. *)
Fixpoint engine_loop (spec : BoatSpecs) (per_shaft_kw_req : Q)
    (target_prop_rpm : Z) (gbs : list Gearbox) (engines_f : list Engine)
    : result (list Row) :=
  match engines_f with
  | [] => Ok []
  | e :: rest =>
      ideal_ratio <- py_div (rated_rpm e) (inject_Z target_prop_rpm) ;;
      rs <- gearbox_loop spec per_shaft_kw_req target_prop_rpm ideal_ratio e gbs ;;
      more <- engine_loop spec per_shaft_kw_req target_prop_rpm gbs rest ;;
      Ok (rs ++ more)
  end.

Definition no_engine_status : string :=
  "No engine matches found with current constraints.".

Definition no_engine_hint : string :=
  "Increase budget/space limits, reduce margin, add more engines to catalog, or lower target speed.".

Definition no_gearbox_status : string :=
  "Engines matched, but no gearbox matched power/rpm constraints.".

Definition no_gearbox_hint : string :=
  "Add gearbox models to catalog or raise gearbox limits.".

(** The float a power figure must be for the arithmetic that follows. *)
Definition as_float (r : result pynum) : result Q :=
  match r with
  | Ok (PyFloat q) => Ok q
  | Ok PyComplex => Unmodelled
  | Raise e => Raise e
  | Unmodelled => Unmodelled
  end.

Section Engine.

(** [pow_two_thirds x] is the float [x ** (2/3)] for a positive [x]. *)
Variable pow_two_thirds : Q -> Q.

(** [x ** (2/3)] on every float: a complex number below zero, zero at zero. *)
Definition py_pow_two_thirds (x : Q) : pynum :=
  if Qlt_le_dec x 0 then PyComplex
  else if Qeq_bool x 0 then PyFloat 0
  else PyFloat (pow_two_thirds x).

(** The Admiralty estimate in horsepower (line 82). *)
Definition hp_disp (D V : Q) : pynum :=
  match py_pow_two_thirds D with
  | PyFloat p => PyFloat (p * V ^ 3 / 130)
  | PyComplex => PyComplex
  end.

(** The Crouch estimate in horsepower (lines 73 and 85). *)
Definition hp_plan (D V : Q) : Q :=
  let W_lb := D * (220462 # 100) in
  W_lb * (V / 185) ^ 2.

(** [estimate_total_power_kw] (lines 57-98). *)
Definition estimate_total_power_kw (spec : BoatSpecs) : result pynum :=
  let D := displacement_tonnes spec in
  let V := target_speed_kn spec in
  let hull := lower (strip (hull_type spec)) in
  if String.eqb hull "displacement" then
    match hp_disp D V with
    | PyFloat hp => Ok (PyFloat (hp_to_kw hp))
    | PyComplex => Ok PyComplex
    end
  else if String.eqb hull "planing" then
    Ok (PyFloat (hp_to_kw (hp_plan D V)))
  else if str_in hull semi_names then
    let t := blend_factor V in
    match hp_disp D V with
    | PyFloat d => Ok (PyFloat (hp_to_kw ((1 - t) * d + t * hp_plan D V)))
    | PyComplex => Ok PyComplex
    end
  else Raise ValueError.

(** [choose_target_prop_rpm] (lines 100-114). *)
Definition choose_target_prop_rpm (spec : BoatSpecs) : Z :=
  match desired_prop_rpm spec with
  | Some rpm => rpm
  | None =>
      let D := displacement_tonnes spec in
      let hull := lower (hull_type spec) in
      if String.eqb hull "displacement" then
        (if Qlt_le_dec D 30 then 900 else 750)%Z
      else if str_in hull semi_names then
        (if Qlt_le_dec D 30 then 1100 else 950)%Z
      else if String.eqb hull "planing" then
        (if Qlt_le_dec D 30 then 1300 else 1150)%Z
      else 1000%Z
  end.

(** [out.sort_values("score", ascending=False).reset_index(drop=True)]
    (line 196): the sort of the pandas library under its default [kind],
    "quicksort", which pandas documents as not stable.  The properties below
    assume of it that it returns its rows in descending order of score, and
    nothing about rows of equal score. *)
Variable sort_values : list Row -> list Row.

(** [select_propulsion] (lines 119-197). *)
Definition select_propulsion (spec : BoatSpecs) : M Selection :=
  total_kw <-- lift (as_float (estimate_total_power_kw spec)) ;;
  let total_kw_with_margin := total_kw * (1 + power_margin spec) in
  per_shaft_kw_req <--
    lift (py_div total_kw_with_margin (inject_Z (shafts spec))) ;;
  let target_prop_rpm := choose_target_prop_rpm spec in
  engines <-- read_engines ;;
  let engines_f := filter (engine_passes spec per_shaft_kw_req) engines in
  match engines_f with
  | [] =>
      ret (NoEngineMatch no_engine_status (py_round1 total_kw)
             (py_round1 per_shaft_kw_req) no_engine_hint,
           total_kw, total_kw_with_margin, per_shaft_kw_req, target_prop_rpm)
  | _ :: _ =>
      gbs <-- read_gearboxes ;;
      rows <--
        lift (engine_loop spec per_shaft_kw_req target_prop_rpm gbs engines_f) ;;
      match rows with
      | [] =>
          ret (NoGearboxMatch no_gearbox_status no_gearbox_hint,
               total_kw, total_kw_with_margin, per_shaft_kw_req, target_prop_rpm)
      | _ :: _ =>
          ret (Ranked (sort_values rows),
               total_kw, total_kw_with_margin, per_shaft_kw_req, target_prop_rpm)
      end
  end.

End Engine.

(** ** Instances of the two library operations *)

(** The largest [k] in [[lo, hi)] with [k ^ 3 <= n], by bisection. *)
Fixpoint cube_root_between (fuel : nat) (lo hi n : Z) : Z :=
  match fuel with
  | O => lo
  | S fuel' =>
      if (hi - lo <=? 1)%Z then lo
      else
        let mid := ((lo + hi) / 2)%Z in
        if (mid ^ 3 <=? n)%Z then cube_root_between fuel' mid hi n
        else cube_root_between fuel' lo mid n
  end.

Definition cube_root (n : Z) : Z := cube_root_between 400 0 (n + 1) n.

(** [x ** (2/3)] rounded down to six decimals: a float power as a libm would
    give it, at a coarser precision. *)
Definition rounded_pow_two_thirds (x : Q) : Q :=
  let p := Qnum x in
  let q := Zpos (Qden x) in
  Qred (Qmake (cube_root (p * p * q * 10 ^ 18)) (Qden x * 1000000)).

(** Insertion of [x] in front of the first row it goes [before]. *)
Fixpoint insert_row (before : Row -> Row -> bool) (x : Row) (l : list Row)
    : list Row :=
  match l with
  | [] => [x]
  | y :: t => if before x y then x :: l else y :: insert_row before x t
  end.

Definition insertion_sort (before : Row -> Row -> bool) (l : list Row)
    : list Row :=
  fold_right (insert_row before) [] l.

(** A descending sort that keeps rows of equal score in their input order. *)
Definition stable_sort_values : list Row -> list Row :=
  insertion_sort (fun x y => Qle_bool (score y) (score x)).

(** A descending sort that reverses rows of equal score. *)
Definition reversing_sort_values : list Row -> list Row :=
  insertion_sort (fun x y => Qgt_bool (score x) (score y)).

(** ** Vocabulary of the properties *)

(** The hull classes the power model accepts, once normalised. *)
Definition recognized (hull : string) : bool :=
  String.eqb hull "displacement" || String.eqb hull "planing"
  || str_in hull semi_names.

(** A valid specification: recognized hull class, positive displacement,
    speed and shaft count, margin not negative. *)
Definition valid_spec (spec : BoatSpecs) : Prop :=
  recognized (lower (strip (hull_type spec))) = true
  /\ 0 < displacement_tonnes spec
  /\ 0 < target_speed_kn spec
  /\ (1 <= shafts spec)%Z
  /\ 0 <= power_margin spec.

(** [x] may stand before [y] in a ranking: its score is not smaller. *)
Definition score_ge (x y : Row) : Prop := score y <= score x.

(** Rows of equal score stand in [out] in the order they have in [cand]. *)
Definition ties_in_input_order (cand out : list Row) : Prop :=
  forall s : Q,
    filter (fun r => Qeq_bool (score r) s) out
    = filter (fun r => Qeq_bool (score r) s) cand.

(** [c] is the ratio of [options] nearest to [ideal], and the first such
    in the order of the list. *)
Definition nearest_first (ideal : Q) (options : list Q) (c : Q) : Prop :=
  In c options
  /\ (forall x, In x options -> Qabs (c - ideal) <= Qabs (x - ideal))
  /\ exists pre post,
       options = pre ++ c :: post
       /\ forall x, In x pre -> Qabs (c - ideal) < Qabs (x - ideal).

(** The same specification under another hull class. *)
Definition set_hull_type (h : string) (spec : BoatSpecs) : BoatSpecs :=
  {| hull_type := h;
     displacement_tonnes := displacement_tonnes spec;
     target_speed_kn := target_speed_kn spec;
     shafts := shafts spec;
     fuel := fuel spec;
     budget_usd := budget_usd spec;
     max_engine_length_mm := max_engine_length_mm spec;
     max_engine_weight_kg := max_engine_weight_kg spec;
     desired_prop_rpm := desired_prop_rpm spec;
     power_margin := power_margin spec |}.

(** ** Sample inputs *)

(** Scenario A of the specification, on the form's default limits. *)
Definition scenario_a : BoatSpecs :=
  {| hull_type := "semi-displacement"; displacement_tonnes := 25;
     target_speed_kn := 15; shafts := 2; fuel := "diesel";
     budget_usd := 250000; max_engine_length_mm := 1800;
     max_engine_weight_kg := 1800; desired_prop_rpm := None;
     power_margin := 15 # 100 |}.

(** Scenario A with a leading blank in the hull class, as a planing hull. *)
Definition leading_space_spec : BoatSpecs :=
  set_hull_type " planing" scenario_a.

(** Scenario C: a budget below every price of the shipped catalog. *)
Definition scenario_c : BoatSpecs :=
  {| hull_type := "semi-displacement"; displacement_tonnes := 25;
     target_speed_kn := 15; shafts := 2; fuel := "diesel";
     budget_usd := 1000; max_engine_length_mm := 1800;
     max_engine_weight_kg := 1800; desired_prop_rpm := None;
     power_margin := 15 # 100 |}.

(** A displacement hull asked for a speed of zero knots, on the budget of
    scenario C. *)
Definition zero_speed_spec : BoatSpecs :=
  {| hull_type := "displacement"; displacement_tonnes := 25;
     target_speed_kn := 0; shafts := 2; fuel := "diesel";
     budget_usd := 1000; max_engine_length_mm := 1800;
     max_engine_weight_kg := 1800; desired_prop_rpm := None;
     power_margin := 15 # 100 |}.

(** A planing hull of zero tonnes. *)
Definition zero_displacement_spec : BoatSpecs :=
  {| hull_type := "Planing"; displacement_tonnes := 0;
     target_speed_kn := 20; shafts := 2; fuel := "diesel";
     budget_usd := 1000; max_engine_length_mm := 1800;
     max_engine_weight_kg := 1800; desired_prop_rpm := None;
     power_margin := 15 # 100 |}.

(** A planing hull whose limits leave the Yanmar engine alone, with a
    desired 1000 rpm and the budget at which its two gearboxes score the
    same. *)
Definition tie_spec : BoatSpecs :=
  {| hull_type := "planing"; displacement_tonnes := 10;
     target_speed_kn := 20; shafts := 1; fuel := "diesel";
     budget_usd := 1122000 # 7; max_engine_length_mm := 1100;
     max_engine_weight_kg := 1800; desired_prop_rpm := Some 1000%Z;
     power_margin := 0 |}.

(** The same boat on the form's default budget, the target left to the
    heuristic. *)
Definition yanmar_only_spec : BoatSpecs :=
  {| hull_type := "planing"; displacement_tonnes := 10;
     target_speed_kn := 20; shafts := 1; fuel := "diesel";
     budget_usd := 250000; max_engine_length_mm := 1100;
     max_engine_weight_kg := 1800; desired_prop_rpm := None;
     power_margin := 0 |}.

(** The shipped engines with one gearbox listed under two names. *)
Definition twin_gearbox_globals : Globals :=
  {| ENGINE_CATALOG := ENGINE_CATALOG shipped;
     GEARBOX_CATALOG :=
       [ gearbox "Twin A" [2; 3] 1200 3500 20000;
         gearbox "Twin B" [2; 3] 1200 3500 20000 ] |}.

(** A planing hull with a desired propeller speed of 0 rpm. *)
Definition zero_rpm_spec : BoatSpecs :=
  {| hull_type := "planing"; displacement_tonnes := 25;
     target_speed_kn := 15; shafts := 2; fuel := "diesel";
     budget_usd := 250000; max_engine_length_mm := 1800;
     max_engine_weight_kg := 1800; desired_prop_rpm := Some 0%Z;
     power_margin := 15 # 100 |}.

(** [zero_rpm_spec] with the heuristic's own target. *)
Definition auto_rpm_spec : BoatSpecs :=
  {| hull_type := "planing"; displacement_tonnes := 25;
     target_speed_kn := 15; shafts := 2; fuel := "diesel";
     budget_usd := 250000; max_engine_length_mm := 1800;
     max_engine_weight_kg := 1800; desired_prop_rpm := None;
     power_margin := 15 # 100 |}.

(** An unknown hull class with a desired propeller speed. *)
Definition hovercraft_spec : BoatSpecs :=
  {| hull_type := "hovercraft"; displacement_tonnes := 25;
     target_speed_kn := 15; shafts := 2; fuel := "diesel";
     budget_usd := 250000; max_engine_length_mm := 1800;
     max_engine_weight_kg := 1800; desired_prop_rpm := Some 800%Z;
     power_margin := 15 # 100 |}.

(** The same unknown hull class, the target left to the heuristic. *)
Definition hovercraft_auto_spec : BoatSpecs :=
  {| hull_type := "hovercraft"; displacement_tonnes := 25;
     target_speed_kn := 15; shafts := 2; fuel := "diesel";
     budget_usd := 250000; max_engine_length_mm := 1800;
     max_engine_weight_kg := 1800; desired_prop_rpm := None;
     power_margin := 15 # 100 |}.

(** Scenario A at the two ends of the blend: 12 knots and 40 knots. *)
Definition semi_at_12 : BoatSpecs :=
  {| hull_type := "Semi-Displacement"; displacement_tonnes := 25;
     target_speed_kn := 12; shafts := 2; fuel := "diesel";
     budget_usd := 250000; max_engine_length_mm := 1800;
     max_engine_weight_kg := 1800; desired_prop_rpm := None;
     power_margin := 15 # 100 |}.

Definition semi_at_40 : BoatSpecs :=
  {| hull_type := "semi"; displacement_tonnes := 25;
     target_speed_kn := 40; shafts := 2; fuel := "diesel";
     budget_usd := 250000; max_engine_length_mm := 1800;
     max_engine_weight_kg := 1800; desired_prop_rpm := None;
     power_margin := 15 # 100 |}.

(** The shipped engines with a single gearbox too small for any of them. *)
Definition small_gearbox_globals : Globals :=
  {| ENGINE_CATALOG := ENGINE_CATALOG shipped;
     GEARBOX_CATALOG := [ gearbox "Small" [2; 3] 100 4000 5000 ] |}.

(** An engine that sits on every limit of scenario A at a requirement of
    324 kW. *)
Definition boundary_engine : Engine :=
  engine "Edge" "Maker" 324 3000 1800 "Diesel" 1800 700 900 250000.

(** ** The form (lines 219-261) and the table (line 287) *)

(** The (engine, gearbox) pairs the two loops visit without skipping, in the
    order they visit them. *)
Definition surviving_pairs (engines_f : list Engine) (gbs : list Gearbox)
    : list (Engine * Gearbox) :=
  flat_map
    (fun e => map (pair e) (filter (fun gb => negb (gearbox_skipped e gb)) gbs))
    engines_f.

(** The identity of a pair as a row shows it. *)
Definition pair_names (p : Engine * Gearbox) : string * string :=
  ((manufacturer (fst p) ++ " " ++ engine_model (fst p))%string,
   gb_name (snd p)).

Definition row_names (r : Row) : string * string :=
  (engine_name r, gearbox_name r).

(** A catalog the loops can run on: rated speeds and gear ratios are not
    zero and every gearbox lists a ratio. *)
Definition usable_catalogs (g : Globals) : Prop :=
  (forall e, In e (ENGINE_CATALOG g) -> ~ rated_rpm e == 0)
  /\ (forall gb, In gb (GEARBOX_CATALOG g) ->
        ratios gb <> [] /\ forall x, In x (ratios gb) -> ~ x == 0).

(** [results.head(20)] (line 287). *)
Definition head20 (df : DataFrame) : DataFrame :=
  match df with
  | Ranked rows => Ranked (firstn 20 rows)
  | _ => df
  end.

Module Ui.

(** The values of the widgets, under the names lines 224-244 give them. *)
Record Inputs : Type := {
  hull_type : string;
  displacement_tonnes : Q;
  target_speed_kn : Q;
  shafts : Z;
  fuel : string;
  power_margin : Q;
  budget_usd : Q;
  max_engine_length_mm : Z;
  max_engine_weight_kg : Z;
  desired_prop_rpm : Z
}.

(** What the widgets can return: the options of the select boxes and the
    [min_value] and [max_value] of the number inputs and of the slider. *)
Definition in_range (i : Inputs) : Prop :=
  In (hull_type i) ["displacement"; "semi-displacement"; "planing"]
  /\ 1 <= displacement_tonnes i
  /\ 1 <= target_speed_kn i
  /\ In (shafts i) [1; 2; 3; 4]%Z
  /\ fuel i = "diesel"
  /\ 0 <= power_margin i /\ power_margin i <= 40 # 100
  /\ 1000 <= budget_usd i
  /\ (500 <= max_engine_length_mm i)%Z
  /\ (100 <= max_engine_weight_kg i)%Z
  /\ (0 <= desired_prop_rpm i)%Z.

(** The specification built when the button is pressed (lines 245 and
    250-261); a desired RPM of 0 stands for none. *)
Definition spec (i : Inputs) : BoatSpecs :=
  Build_BoatSpecs
    (hull_type i)
    (displacement_tonnes i)
    (target_speed_kn i)
    (shafts i)
    (fuel i)
    (budget_usd i)
    (inject_Z (max_engine_length_mm i))
    (inject_Z (max_engine_weight_kg i))
    (if (desired_prop_rpm i =? 0)%Z then None else Some (desired_prop_rpm i))
    (power_margin i).

(** The form as it opens (the [value] and [index] of each widget). *)
Definition defaults : Inputs :=
  {| hull_type := "semi-displacement"; displacement_tonnes := 25;
     target_speed_kn := 15; shafts := 2; fuel := "diesel";
     power_margin := 15 # 100; budget_usd := 250000;
     max_engine_length_mm := 1800; max_engine_weight_kg := 1800;
     desired_prop_rpm := 0 |}.

End Ui.

(** A catalog with a gearbox that lists no ratio. *)
Definition no_ratio_globals : Globals :=
  {| ENGINE_CATALOG := ENGINE_CATALOG shipped;
     GEARBOX_CATALOG := [ gearbox "Bare" [] 1200 3500 20000 ] |}.

(** Scenario A with no shaft. *)
Definition no_shaft_spec : BoatSpecs :=
  {| hull_type := "semi-displacement"; displacement_tonnes := 25;
     target_speed_kn := 15; shafts := 0; fuel := "diesel";
     budget_usd := 250000; max_engine_length_mm := 1800;
     max_engine_weight_kg := 1800; desired_prop_rpm := None;
     power_margin := 15 # 100 |}.

(** Scenario D: a displacement hull written in mixed case, between blanks. *)
Definition mixed_case_spec : BoatSpecs :=
  set_hull_type "  Displacement " scenario_a.

(** Scenario A on a boat of 40 tonnes. *)
Definition heavy_spec : BoatSpecs :=
  {| hull_type := "semi-displacement"; displacement_tonnes := 40;
     target_speed_kn := 15; shafts := 2; fuel := "diesel";
     budget_usd := 250000; max_engine_length_mm := 1800;
     max_engine_weight_kg := 1800; desired_prop_rpm := None;
     power_margin := 15 # 100 |}.

(** The same specification under another fuel. *)
Definition set_fuel (f : string) (spec : BoatSpecs) : BoatSpecs :=
  {| hull_type := hull_type spec;
     displacement_tonnes := displacement_tonnes spec;
     target_speed_kn := target_speed_kn spec;
     shafts := shafts spec;
     fuel := f;
     budget_usd := budget_usd spec;
     max_engine_length_mm := max_engine_length_mm spec;
     max_engine_weight_kg := max_engine_weight_kg spec;
     desired_prop_rpm := desired_prop_rpm spec;
     power_margin := power_margin spec |}.

(** Scenario A with a desired 1500 rpm: half the rated speed of the
    3000 rpm engines. *)
Definition desired_1500_spec : BoatSpecs :=
  {| hull_type := "semi-displacement"; displacement_tonnes := 25;
     target_speed_kn := 15; shafts := 2; fuel := "diesel";
     budget_usd := 250000; max_engine_length_mm := 1800;
     max_engine_weight_kg := 1800; desired_prop_rpm := Some 1500%Z;
     power_margin := 15 # 100 |}.

(** A planing hull, and a heavier and faster one. *)
Definition planing_spec : BoatSpecs :=
  set_hull_type "planing" scenario_a.

Definition planing_faster_spec : BoatSpecs :=
  {| hull_type := "Planing"; displacement_tonnes := 30;
     target_speed_kn := 25; shafts := 2; fuel := "diesel";
     budget_usd := 250000; max_engine_length_mm := 1800;
     max_engine_weight_kg := 1800; desired_prop_rpm := None;
     power_margin := 15 # 100 |}.

(** ** Tactics for the sample inputs *)

Ltac valid_spec_tac :=
  unfold valid_spec; repeat split; simpl; try reflexivity; try lra; try lia.

(** Evaluation of the left side of an equation whose right side is still to
    be chosen. *)
Ltac evaluate_lhs :=
  lazymatch goal with
  | |- ?lhs = _ =>
      let v := eval vm_compute in lhs in
      transitivity v; [vm_compute; reflexivity | reflexivity]
  end.

(** The call on scenario A and the shipped catalogs, under the stable sort. *)
Ltac scenario_a_ranked E :=
  destruct (fst (select_propulsion rounded_pow_two_thirds stable_sort_values
                   scenario_a shipped))
    as [[[[[[? ? ? ? | ? ? | rows] a] b] c] d] | ? | ] eqn:E;
  try (vm_compute in E; discriminate E).

(** ** Properties *)

(** *** Numbers and outcomes *)

Lemma Qgt_bool_false (a b : Q) : Qgt_bool a b = false <-> a <= b.
Proof.
  unfold Qgt_bool. rewrite negb_false_iff. apply Qle_bool_iff.
Qed.

Lemma Qgt_bool_true (a b : Q) : Qgt_bool a b = true <-> b < a.
Proof.
  unfold Qgt_bool. rewrite negb_true_iff. split.
  - intros H. apply Qnot_le_lt. intros Hle.
    apply Qle_bool_iff in Hle. congruence.
  - intros H. destruct (Qle_bool a b) eqn:E; [|reflexivity].
    apply Qle_bool_iff in E. lra.
Qed.

Lemma py_div_ok (a b q : Q) :
  py_div a b = Ok q <-> ~ b == 0 /\ q = a / b.
Proof.
  unfold py_div. destruct (Qeq_bool b 0) eqn:E.
  - apply Qeq_bool_iff in E. split; [discriminate | tauto].
  - apply Qeq_bool_neq in E. split.
    + intros H. injection H as <-. auto.
    + intros [_ ->]. reflexivity.
Qed.

Lemma bind_ok {A B : Type} (m : result A) (k : A -> result B) (b : B) :
  bind m k = Ok b <-> exists a, m = Ok a /\ k a = Ok b.
Proof.
  destruct m; simpl; split.
  - eauto.
  - intros (a' & Ha & Hk). injection Ha as ->. exact Hk.
  - discriminate.
  - intros (a' & Ha & _). discriminate.
  - discriminate.
  - intros (a' & Ha & _). discriminate.
Qed.

(** *** [min] with a key *)

Section MinByKey.

Context {A : Type} (key : A -> Q).

Lemma min_by_key_split (rest : list A) :
  forall best : A,
    exists pre post,
      best :: rest = pre ++ min_by_key key best rest :: post
      /\ (forall x, In x pre -> key (min_by_key key best rest) < key x)
      /\ (forall x, In x post -> key (min_by_key key best rest) <= key x).
Proof.
  induction rest as [|x t IH]; intros best; simpl.
  - exists [], []. simpl. repeat split; intros ? [].
  - destruct (Qlt_le_dec (key x) (key best)) as [Hlt | Hle].
    + destruct (IH x) as (pre & post & Heq & Hpre & Hpost).
      exists (best :: pre), post. repeat split.
      * simpl. now rewrite Heq.
      * intros y [<- | Hy]; [|auto].
        assert (Hm : key (min_by_key key x t) <= key x).
        { destruct pre as [|p pre']; simpl in Heq.
          - injection Heq as Hx _. rewrite <- Hx. lra.
          - injection Heq as Hx _. apply Qlt_le_weak, Hpre. now left. }
        lra.
      * exact Hpost.
    + destruct (IH best) as (pre & post & Heq & Hpre & Hpost).
      destruct pre as [|p pre']; simpl in Heq.
      * injection Heq as Hb Ht. exists [], (x :: post). repeat split.
        -- simpl. rewrite <- Hb at 1. now rewrite Ht.
        -- intros ? [].
        -- intros y [<- | Hy]; [|auto]. rewrite <- Hb. exact Hle.
      * injection Heq as Hb Ht. subst p.
        exists (best :: x :: pre'), post. repeat split.
        -- simpl. now rewrite <- Ht.
        -- intros y [<- | [<- | Hy]].
           ++ apply Hpre. now left.
           ++ assert (key (min_by_key key best t) < key best)
                by (apply Hpre; now left). lra.
           ++ apply Hpre. now right.
        -- exact Hpost.
Qed.

Lemma min_by_key_In (best : A) (rest : list A) :
  In (min_by_key key best rest) (best :: rest).
Proof.
  destruct (min_by_key_split rest best) as (pre & post & Heq & _).
  rewrite Heq. apply in_elt.
Qed.

Lemma min_by_key_le (best : A) (rest : list A) (x : A) :
  In x (best :: rest) -> key (min_by_key key best rest) <= key x.
Proof.
  destruct (min_by_key_split rest best) as (pre & post & Heq & Hpre & Hpost).
  rewrite Heq. intros H. apply in_app_or in H.
  destruct H as [H | [<- | H]].
  - apply Qlt_le_weak. auto.
  - lra.
  - auto.
Qed.

End MinByKey.

(** What [nearest_ratio] returns. *)
Lemma nearest_ratio_spec (ratio : Q) (options : list Q) (c : Q) :
  nearest_ratio ratio options = Ok c -> nearest_first ratio options c.
Proof.
  destruct options as [|x t]; simpl; [discriminate|].
  intros H. injection H as <-.
  set (key := fun y : Q => Qabs (y - ratio)).
  split; [|split].
  - apply (min_by_key_In key).
  - intros y Hy. apply (min_by_key_le key x t y Hy).
  - destruct (min_by_key_split key t x) as (pre & post & Heq & Hpre & _).
    exists pre, post. split; [exact Heq | exact Hpre].
Qed.

Lemma nearest_ratio_nonempty (ratio : Q) (options : list Q) :
  options <> [] -> exists c, nearest_ratio ratio options = Ok c.
Proof.
  destruct options as [|x t]; [congruence|]. intros _. simpl. eauto.
Qed.

Section Properties.

Variable pow_two_thirds : Q -> Q.
Variable sort_values : list Row -> list Row.

Abbreviation estimate := (estimate_total_power_kw pow_two_thirds).
Abbreviation select := (select_propulsion pow_two_thirds sort_values).

(** *** The two loops *)

Lemma gearbox_loop_In spec ps tr ideal e gbs rows :
  gearbox_loop spec ps tr ideal e gbs = Ok rows ->
  forall r, In r rows ->
    exists gb, In gb gbs /\ gearbox_skipped e gb = false
               /\ pair_row spec ps tr ideal e gb = Ok r.
Proof.
  revert rows. induction gbs as [|gb rest IH]; simpl; intros rows H r Hr.
  - injection H as <-. destruct Hr.
  - destruct (gearbox_skipped e gb) eqn:Hs.
    + destruct (IH _ H r Hr) as (gb' & Hin & Hk & Hp). eauto.
    + apply bind_ok in H. destruct H as (r0 & Hr0 & H).
      apply bind_ok in H. destruct H as (rs & Hrs & H).
      injection H as <-. destruct Hr as [<- | Hr].
      * exists gb. auto.
      * destruct (IH _ Hrs r Hr) as (gb' & Hin & Hk & Hp). eauto.
Qed.

Lemma engine_loop_In spec ps tr gbs es rows :
  engine_loop spec ps tr gbs es = Ok rows ->
  forall r, In r rows ->
    exists e gb, In e es /\ In gb gbs /\ gearbox_skipped e gb = false
      /\ ~ inject_Z tr == 0
      /\ pair_row spec ps tr (rated_rpm e / inject_Z tr) e gb = Ok r.
Proof.
  revert rows. induction es as [|e rest IH]; simpl; intros rows H r Hr.
  - injection H as <-. destruct Hr.
  - apply bind_ok in H. destruct H as (ideal & Hi & H).
    apply bind_ok in H. destruct H as (rs & Hrs & H).
    apply bind_ok in H. destruct H as (more & Hmore & H).
    injection H as <-. apply py_div_ok in Hi. destruct Hi as [Hnz ->].
    apply in_app_or in Hr. destruct Hr as [Hr | Hr].
    + destruct (gearbox_loop_In _ _ _ _ _ _ _ Hrs r Hr) as (gb & Hin & Hk & Hp).
      exists e, gb. auto 6.
    + destruct (IH _ Hmore r Hr) as (e' & gb & He & Hgb & Hk & Hnz' & Hp).
      exists e', gb. auto 6.
Qed.

Lemma gearbox_loop_complete spec ps tr ideal e gbs rows :
  gearbox_loop spec ps tr ideal e gbs = Ok rows ->
  forall gb, In gb gbs -> gearbox_skipped e gb = false ->
    exists r, In r rows /\ pair_row spec ps tr ideal e gb = Ok r.
Proof.
  revert rows. induction gbs as [|gb0 rest IH]; simpl; intros rows H gb Hgb Hk.
  - destruct Hgb.
  - destruct (gearbox_skipped e gb0) eqn:Hs.
    + destruct Hgb as [<- | Hgb]; [congruence|]. eauto.
    + apply bind_ok in H. destruct H as (r0 & Hr0 & H).
      apply bind_ok in H. destruct H as (rs & Hrs & H).
      injection H as <-. destruct Hgb as [<- | Hgb].
      * exists r0. split; [now left | exact Hr0].
      * destruct (IH _ Hrs gb Hgb Hk) as (r & Hr & Hp).
        exists r. split; [now right | exact Hp].
Qed.

Lemma engine_loop_complete spec ps tr gbs es rows :
  engine_loop spec ps tr gbs es = Ok rows ->
  forall e gb, In e es -> In gb gbs -> gearbox_skipped e gb = false ->
    exists r, In r rows
              /\ pair_row spec ps tr (rated_rpm e / inject_Z tr) e gb = Ok r.
Proof.
  revert rows. induction es as [|e0 rest IH]; simpl;
    intros rows H e gb He Hgb Hk.
  - destruct He.
  - apply bind_ok in H. destruct H as (ideal & Hi & H).
    apply bind_ok in H. destruct H as (rs & Hrs & H).
    apply bind_ok in H. destruct H as (more & Hmore & H).
    injection H as <-. apply py_div_ok in Hi. destruct Hi as [_ ->].
    destruct He as [<- | He].
    + destruct (gearbox_loop_complete _ _ _ _ _ _ _ Hrs gb Hgb Hk)
        as (r & Hr & Hp).
      exists r. split; [apply in_or_app; now left | exact Hp].
    + destruct (IH _ Hmore e gb He Hgb Hk) as (r & Hr & Hp).
      exists r. split; [apply in_or_app; now right | exact Hp].
Qed.

Lemma gearbox_loop_all_skipped spec ps tr ideal e gbs :
  (forall gb, In gb gbs -> gearbox_skipped e gb = true) ->
  gearbox_loop spec ps tr ideal e gbs = Ok [].
Proof.
  induction gbs as [|gb rest IH]; simpl; intros H; [reflexivity|].
  rewrite (H gb) by now left. apply IH. intros gb' Hin. apply H. now right.
Qed.

Lemma engine_loop_all_skipped spec ps tr gbs es :
  ~ inject_Z tr == 0 ->
  (forall e gb, In e es -> In gb gbs -> gearbox_skipped e gb = true) ->
  engine_loop spec ps tr gbs es = Ok [].
Proof.
  intros Hnz. induction es as [|e rest IH]; simpl; intros H; [reflexivity|].
  unfold py_div. destruct (Qeq_bool (inject_Z tr) 0) eqn:E.
  { apply Qeq_bool_iff in E. contradiction. }
  simpl. rewrite gearbox_loop_all_skipped.
  - simpl. rewrite IH; [reflexivity|].
    intros e' gb He Hgb. apply H; [now right | exact Hgb].
  - intros gb Hgb. apply H; [now left | exact Hgb].
Qed.

(** *** The orchestrator, case by case *)

Lemma select_state spec g : snd (select spec g) = g.
Proof.
  unfold select_propulsion, bindM, lift, ret, read_engines, read_gearboxes.
  destruct (as_float (estimate spec)) as [total| |];
    cbv beta iota zeta; try reflexivity.
  destruct (py_div _ _) as [ps| |]; cbv beta iota zeta; try reflexivity.
  destruct (filter _ _) as [|e0 es]; cbv beta iota zeta; try reflexivity.
  destruct (engine_loop _ _ _ _ _) as [rows| |];
    cbv beta iota zeta; try reflexivity.
  destruct rows; reflexivity.
Qed.

Lemma select_inv spec g df a b c d :
  fst (select spec g) = Ok (df, a, b, c, d) ->
  as_float (estimate spec) = Ok a
  /\ b = a * (1 + power_margin spec)
  /\ ~ inject_Z (shafts spec) == 0
  /\ c = b / inject_Z (shafts spec)
  /\ d = choose_target_prop_rpm spec
  /\ (filter (engine_passes spec c) (ENGINE_CATALOG g) = []
      /\ df = NoEngineMatch no_engine_status (py_round1 a) (py_round1 c)
                no_engine_hint
      \/ filter (engine_passes spec c) (ENGINE_CATALOG g) <> []
         /\ exists rows,
              engine_loop spec c d (GEARBOX_CATALOG g)
                (filter (engine_passes spec c) (ENGINE_CATALOG g)) = Ok rows
              /\ (rows = [] /\ df = NoGearboxMatch no_gearbox_status no_gearbox_hint
                  \/ rows <> [] /\ df = Ranked (sort_values rows))).
Proof.
  unfold select_propulsion, bindM, lift, ret, read_engines, read_gearboxes.
  destruct (as_float (estimate spec)) as [total| |];
    cbv beta iota zeta; try discriminate.
  destruct (py_div _ _) as [ps| |] eqn:Hps;
    cbv beta iota zeta; try discriminate.
  apply py_div_ok in Hps. destruct Hps as [Hnz Hps].
  destruct (filter (engine_passes spec ps) (ENGINE_CATALOG g))
    as [|e0 es] eqn:Hf; cbv beta iota zeta.
  - intros H. injection H as <- <- <- <- <-. rewrite Hf. auto 10.
  - destruct (engine_loop _ _ _ _ _) as [rows| |] eqn:Hl;
      cbv beta iota zeta; try discriminate.
    destruct rows as [|r0 rs]; cbv beta iota zeta; intros H;
      injection H as <- <- <- <- <-; rewrite Hf;
      (repeat split; auto; right; split; [discriminate|]);
      eexists; (split; [exact Hl|]).
    + left. auto.
    + right. split; [discriminate | reflexivity].
Qed.

Lemma as_float_ok (r : result pynum) (q : Q) :
  as_float r = Ok q <-> r = Ok (PyFloat q).
Proof.
  destruct r as [[q'|]| |]; simpl; split; intros H;
    try discriminate; try (injection H as ->; reflexivity).
Qed.

Lemma select_raises_with_estimate spec g e :
  estimate spec = Raise e -> fst (select spec g) = Raise e.
Proof.
  intros H. unfold select_propulsion, bindM, lift. rewrite H. reflexivity.
Qed.

(** *** The power model *)

Lemma semi_names_not_pure (hull : string) :
  str_in hull semi_names = true ->
  String.eqb hull "displacement" = false /\ String.eqb hull "planing" = false.
Proof.
  unfold str_in, semi_names. simpl. rewrite !orb_true_iff.
  intros [H | [H | [H | H]]]; try discriminate;
    apply String.eqb_eq in H; subst hull; split; reflexivity.
Qed.

Lemma hp_disp_float (D V : Q) :
  0 <= D -> exists p, hp_disp pow_two_thirds D V = PyFloat (p * V ^ 3 / 130).
Proof.
  intros HD. unfold hp_disp, py_pow_two_thirds.
  destruct (Qlt_le_dec D 0) as [Hneg | _]; [lra|].
  destruct (Qeq_bool D 0); eauto.
Qed.




Lemma estimate_displacement spec :
  lower (strip (hull_type spec)) = "displacement" ->
  estimate spec
  = match hp_disp pow_two_thirds (displacement_tonnes spec)
            (target_speed_kn spec) with
    | PyFloat hp => Ok (PyFloat (hp_to_kw hp))
    | PyComplex => Ok PyComplex
    end.
Proof.
  intros H. unfold estimate_total_power_kw. cbv zeta. rewrite H. reflexivity.
Qed.

Lemma estimate_planing spec :
  lower (strip (hull_type spec)) = "planing" ->
  estimate spec
  = Ok (PyFloat (hp_to_kw (hp_plan (displacement_tonnes spec)
                             (target_speed_kn spec)))).
Proof.
  intros H. unfold estimate_total_power_kw. cbv zeta. rewrite H. reflexivity.
Qed.

Lemma estimate_semi spec :
  str_in (lower (strip (hull_type spec))) semi_names = true ->
  estimate spec
  = match hp_disp pow_two_thirds (displacement_tonnes spec)
            (target_speed_kn spec) with
    | PyFloat d =>
        Ok (PyFloat (hp_to_kw
          ((1 - blend_factor (target_speed_kn spec)) * d
           + blend_factor (target_speed_kn spec)
             * hp_plan (displacement_tonnes spec) (target_speed_kn spec))))
    | PyComplex => Ok PyComplex
    end.
Proof.
  intros H. unfold estimate_total_power_kw. cbv zeta.
  destruct (semi_names_not_pure _ H) as [-> ->]. rewrite H. reflexivity.
Qed.

Lemma blend_ratio_scaled (V : Q) : 18 * ((V - 12) / (30 - 12)) == V - 12.
Proof. field. Qed.

Lemma blend_factor_bounds (V : Q) : 0 <= blend_factor V /\ blend_factor V <= 1.
Proof.
  unfold blend_factor. pose proof (blend_ratio_scaled V) as Hx.
  set (x := (V - 12) / (30 - 12)) in *.
  destruct (Q.max_spec x 0) as [[H1 H2] | [H1 H2]];
    destruct (Q.min_spec (Qmax x 0) 1) as [[H3 H4] | [H3 H4]]; lra.
Qed.

Lemma blend_factor_low (V : Q) : V <= 12 -> blend_factor V == 0.
Proof.
  intros HV. unfold blend_factor. pose proof (blend_ratio_scaled V) as Hx.
  set (x := (V - 12) / (30 - 12)) in *.
  destruct (Q.max_spec x 0) as [[H1 H2] | [H1 H2]];
    destruct (Q.min_spec (Qmax x 0) 1) as [[H3 H4] | [H3 H4]]; lra.
Qed.

Lemma blend_factor_high (V : Q) : 30 <= V -> blend_factor V == 1.
Proof.
  intros HV. unfold blend_factor. pose proof (blend_ratio_scaled V) as Hx.
  set (x := (V - 12) / (30 - 12)) in *.
  destruct (Q.max_spec x 0) as [[H1 H2] | [H1 H2]];
    destruct (Q.min_spec (Qmax x 0) 1) as [[H3 H4] | [H3 H4]]; lra.
Qed.

Lemma blend_at (t d p : Q) :
  (t == 0 -> hp_to_kw ((1 - t) * d + t * p) == hp_to_kw d)
  /\ (t == 1 -> hp_to_kw ((1 - t) * d + t * p) == hp_to_kw p).
Proof.
  unfold hp_to_kw. split; intros Ht; rewrite Ht; field.
Qed.


(** *** The catalog filter *)

Lemma filter_length_le {A : Type} (f f' : A -> bool) (l : list A) :
  (forall x, In x l -> f' x = true -> f x = true) ->
  (List.length (filter f' l) <= List.length (filter f l))%nat.
Proof.
  induction l as [|x t IH]; simpl; intros H; [lia|].
  assert (IHt : (List.length (filter f' t) <= List.length (filter f t))%nat).
  { apply IH. intros y Hy. apply H. now right. }
  destruct (f' x) eqn:E'.
  - rewrite (H x) by (auto; now left). simpl. lia.
  - destruct (f x); simpl; lia.
Qed.

Lemma engine_passes_iff spec req e :
  engine_passes spec req e = true
  <-> lower (engine_fuel e) = lower (fuel spec)
      /\ req <= power_kw e
      /\ length_mm e <= max_engine_length_mm spec
      /\ dry_weight_kg e <= max_engine_weight_kg spec
      /\ price_usd_est e <= budget_usd spec.
Proof using.
  unfold engine_passes. rewrite !andb_true_iff, !Qle_bool_iff, String.eqb_eq.
  split.
  - intros [[[[? ?] ?] ?] ?]. repeat split; assumption.
  - intros (? & ? & ? & ? & ?). repeat split; assumption.
Qed.

(** C6.  Under a lower budget, lower length and weight limits and a higher
    per-shaft requirement (any of them, or several at once, the fuel kept),
    every engine that passes the filter passed it before, so the filtered
    set is not larger; and an engine that meets every limit with equality
    passes. *)
Theorem tighter_constraints_filter_fewer (engines : list Engine)
    (spec spec' : BoatSpecs) (req req' : Q) :
  lower (fuel spec') = lower (fuel spec) ->
  budget_usd spec' <= budget_usd spec ->
  max_engine_length_mm spec' <= max_engine_length_mm spec ->
  max_engine_weight_kg spec' <= max_engine_weight_kg spec ->
  req <= req' ->
  (List.length (filter (engine_passes spec' req') engines)
   <= List.length (filter (engine_passes spec req) engines))%nat
  /\ (forall e, engine_passes spec' req' e = true ->
                engine_passes spec req e = true)
  /\ (forall e,
        lower (engine_fuel e) = lower (fuel spec) ->
        power_kw e == req ->
        length_mm e == max_engine_length_mm spec ->
        dry_weight_kg e == max_engine_weight_kg spec ->
        price_usd_est e == budget_usd spec ->
        engine_passes spec req e = true).
Proof using.
  intros Hfuel Hb Hl Hw Hr.
  assert (Himp : forall e, engine_passes spec' req' e = true ->
                           engine_passes spec req e = true).
  { intros e. rewrite !engine_passes_iff. rewrite Hfuel.
    intros (Hf & H1 & H2 & H3 & H4). repeat split; try assumption; lra. }
  split; [|split].
  - apply filter_length_le. intros e _. apply Himp.
  - exact Himp.
  - intros e Hf H1 H2 H3 H4. apply engine_passes_iff.
    repeat split; try assumption; lra.
Qed.

(** *** The target RPM heuristic *)

Lemma is_space_lower (c : ascii) : is_space (lower_ascii c) = is_space c.
Proof.
  destruct c as [[] [] [] [] [] [] [] []]; reflexivity.
Qed.

Lemma lstrip_lower (s : string) : lstrip (lower s) = lower (lstrip s).
Proof.
  induction s as [|c t IH]; simpl; [reflexivity|].
  rewrite is_space_lower. destruct (is_space c); [exact IH | reflexivity].
Qed.

Lemma rstrip_lower (s : string) : rstrip (lower s) = lower (rstrip s).
Proof.
  induction s as [|c t IH]; simpl; [reflexivity|].
  rewrite IH, is_space_lower.
  destruct (rstrip t); simpl; [destruct (is_space c)|]; reflexivity.
Qed.

Lemma strip_lower (s : string) : strip (lower s) = lower (strip s).
Proof.
  unfold strip. now rewrite lstrip_lower, rstrip_lower.
Qed.

Lemma recognized_strip (hull : string) :
  recognized hull = true -> strip hull = hull.
Proof.
  unfold recognized, str_in, semi_names. simpl. rewrite !orb_true_iff.
  intros [[H | H] | [H | [H | [H | H]]]]; try discriminate;
    apply String.eqb_eq in H; subst hull; reflexivity.
Qed.

(** A hull class the heuristic knows is one the power model knows. *)
Lemma recognized_lower_strip (h : string) :
  recognized (lower h) = true -> lower (strip h) = lower h.
Proof.
  intros H. rewrite <- strip_lower. apply recognized_strip. exact H.
Qed.

Lemma choose_default spec :
  desired_prop_rpm spec = None ->
  recognized (lower (hull_type spec)) = false ->
  choose_target_prop_rpm spec = 1000%Z.
Proof.
  intros Hd Hr. unfold choose_target_prop_rpm. rewrite Hd. cbv zeta.
  unfold recognized in Hr. rewrite !orb_false_iff in Hr.
  destruct Hr as [[-> ->] ->]. reflexivity.
Qed.

(** C7.  A desired propeller RPM, when given, is the target RPM, whatever
    the hull class and the displacement.  Without one, a hull class that is
    not recognized (by the heuristic's own normalisation, or by the power
    model's) gives 1000 and no error. *)
Theorem target_rpm_override_and_default (spec : BoatSpecs) :
  (forall rpm, desired_prop_rpm spec = Some rpm ->
               choose_target_prop_rpm spec = rpm)
  /\ (desired_prop_rpm spec = None ->
      recognized (lower (hull_type spec)) = false ->
      choose_target_prop_rpm spec = 1000%Z)
  /\ (desired_prop_rpm spec = None ->
      recognized (lower (strip (hull_type spec))) = false ->
      choose_target_prop_rpm spec = 1000%Z).
Proof.
  split; [|split].
  - intros rpm H. unfold choose_target_prop_rpm. now rewrite H.
  - apply choose_default.
  - intros Hd Hr. apply choose_default; [exact Hd|].
    destruct (recognized (lower (hull_type spec))) eqn:E; [|reflexivity].
    rewrite (recognized_lower_strip _ E) in Hr. congruence.
Qed.

(** C10.  The power model strips and lowercases the hull class, the
    heuristic only lowercases it.  So under the hull class [" planing"]
    the estimate is the planing one while the target RPM is the default 1000
    and not the planing value (1300 below 30 tonnes, 1150 from there); on
    the shipped catalogs [select_propulsion] returns with these figures. *)
Theorem leading_space_planing_default_rpm :
  (forall spec,
     hull_type spec = " planing" ->
     desired_prop_rpm spec = None ->
     estimate spec
     = Ok (PyFloat (hp_to_kw (hp_plan (displacement_tonnes spec)
                                (target_speed_kn spec))))
     /\ estimate spec = estimate (set_hull_type "planing" spec)
     /\ choose_target_prop_rpm spec = 1000%Z
     /\ choose_target_prop_rpm (set_hull_type "planing" spec)
        = (if Qlt_le_dec (displacement_tonnes spec) 30 then 1300 else 1150)%Z)
  /\ exists df total_kw total_kw_with_margin per_shaft_kw_req,
       fst (select leading_space_spec shipped)
       = Ok (df, total_kw, total_kw_with_margin, per_shaft_kw_req, 1000%Z)
       /\ total_kw = hp_to_kw (hp_plan 25 15)
       /\ hull_type leading_space_spec = " planing".
Proof.
  split.
  - intros spec Hh Hd. repeat split.
    + apply estimate_planing. now rewrite Hh.
    + rewrite !estimate_planing; [reflexivity | reflexivity | now rewrite Hh].
    + unfold choose_target_prop_rpm. rewrite Hd, Hh. reflexivity.
    + unfold choose_target_prop_rpm. simpl. rewrite Hd. reflexivity.
  - set (r := fst (select leading_space_spec shipped)).
    vm_compute in r. subst r.
    do 4 eexists. split; [reflexivity|]. split; reflexivity.
Qed.

(** *** The ranked rows *)

Lemma pair_row_inv spec ps tr ideal e gb r :
  pair_row spec ps tr ideal e gb = Ok r ->
  nearest_ratio ideal (ratios gb) = Ok (gear_ratio r)
  /\ engine_name r = (manufacturer e ++ " " ++ engine_model e)%string
  /\ gearbox_name r = gb_name gb
  /\ target_rpm r = tr.
Proof.
  unfold pair_row. cbv zeta. intros H.
  apply bind_ok in H. destruct H as (chosen & Hc & H).
  apply bind_ok in H. destruct H as (ach & _ & H).
  apply bind_ok in H. destruct H as (margin & _ & H).
  apply bind_ok in H. destruct H as (err & _ & H).
  injection H as <-. simpl. auto.
Qed.

Lemma StronglySorted_nth_error {A : Type} (R : A -> A -> Prop) (l : list A) :
  StronglySorted R l ->
  forall i j x y, (i < j)%nat ->
    nth_error l i = Some x -> nth_error l j = Some y -> R x y.
Proof.
  induction 1 as [|a l Hs IH Hall]; intros i j x y Hij Hi Hj.
  - destruct i; discriminate.
  - destruct j as [|j]; [lia|]. simpl in Hj.
    destruct i as [|i]; simpl in Hi.
    + injection Hi as <-. rewrite Forall_forall in Hall.
      apply Hall. eapply nth_error_In. exact Hj.
    + apply (IH i j); [lia | assumption | assumption].
Qed.

Hypothesis sort_values_perm : forall l, Permutation (sort_values l) l.
Hypothesis sort_values_sorted : forall l, StronglySorted score_ge (sort_values l).


(** C3.  Every ranked row comes from an engine that passes the filter and a
    gearbox of the catalog that can take it, and every such pair has its
    ranked row.  The gear ratio of the row is one of that gearbox's ratios,
    no ratio of the gearbox is nearer to [rated_rpm / target_prop_rpm], and
    every ratio listed before it is strictly farther. *)
Theorem chosen_ratio_nearest_first (spec : BoatSpecs) (g : Globals)
    (rows : list Row) (total_kw total_kw_with_margin per_shaft_kw_req : Q)
    (target_prop_rpm : Z) :
  fst (select spec g)
  = Ok (Ranked rows, total_kw, total_kw_with_margin, per_shaft_kw_req,
        target_prop_rpm) ->
  (forall r, In r rows ->
     exists e gb,
       In e (ENGINE_CATALOG g)
       /\ engine_passes spec per_shaft_kw_req e = true
       /\ In gb (GEARBOX_CATALOG g)
       /\ gearbox_skipped e gb = false
       /\ engine_name r = (manufacturer e ++ " " ++ engine_model e)%string
       /\ gearbox_name r = gb_name gb
       /\ nearest_first (rated_rpm e / inject_Z target_prop_rpm) (ratios gb)
            (gear_ratio r))
  /\ (forall e gb,
        In e (ENGINE_CATALOG g) ->
        engine_passes spec per_shaft_kw_req e = true ->
        In gb (GEARBOX_CATALOG g) ->
        gearbox_skipped e gb = false ->
        exists r,
          In r rows
          /\ engine_name r = (manufacturer e ++ " " ++ engine_model e)%string
          /\ gearbox_name r = gb_name gb
          /\ nearest_first (rated_rpm e / inject_Z target_prop_rpm) (ratios gb)
               (gear_ratio r)).
Proof.
  intros H. apply select_inv in H.
  destruct H as (_ & _ & _ & _ & _ & [[_ Hdf] | (_ & cand & Hl & Hc)]);
    [discriminate|].
  destruct Hc as [[_ Hdf] | [_ Hdf]]; [discriminate|].
  injection Hdf as ->. split.
  - intros r Hr.
    apply (Permutation_in _ (sort_values_perm cand)) in Hr.
    destruct (engine_loop_In _ _ _ _ _ _ Hl r Hr)
      as (e & gb & He & Hgb & Hk & _ & Hp).
    apply filter_In in He. destruct He as [He Hpass].
    apply pair_row_inv in Hp. destruct Hp as (Hn & Hen & Hgn & _).
    apply nearest_ratio_spec in Hn.
    exists e, gb. auto 10.
  - intros e gb He Hpass Hgb Hk.
    assert (Hf : In e (filter (engine_passes spec per_shaft_kw_req)
                         (ENGINE_CATALOG g)))
      by (apply filter_In; auto).
    destruct (engine_loop_complete _ _ _ _ _ _ Hl e gb Hf Hgb Hk)
      as (r & Hr & Hp).
    apply pair_row_inv in Hp. destruct Hp as (Hn & Hen & Hgn & _).
    apply nearest_ratio_spec in Hn.
    exists r. split; [|auto].
    apply (Permutation_in _ (Permutation_sym (sort_values_perm cand))).
    exact Hr.
Qed.

(** *** The two empty outcomes *)

Lemma estimate_float spec :
  recognized (lower (strip (hull_type spec))) = true ->
  0 <= displacement_tonnes spec ->
  exists total_kw, estimate spec = Ok (PyFloat total_kw).
Proof.
  intros Hrec HD.
  destruct (hp_disp_float (displacement_tonnes spec) (target_speed_kn spec) HD)
    as [p Hp].
  unfold recognized in Hrec. rewrite !orb_true_iff in Hrec.
  destruct Hrec as [[H | H] | H].
  - apply String.eqb_eq in H. rewrite (estimate_displacement _ H), Hp. eauto.
  - apply String.eqb_eq in H. rewrite (estimate_planing _ H). eauto.
  - rewrite (estimate_semi _ H), Hp. eauto.
Qed.

Lemma shafts_nonzero (n : Z) : (1 <= n)%Z -> Qeq_bool (inject_Z n) 0 = false.
Proof.
  intros H. destruct (Qeq_bool (inject_Z n) 0) eqn:E; [|reflexivity].
  apply Qeq_bool_iff in E. unfold Qeq in E. simpl in E. lia.
Qed.


End Properties.

(** ** The two sorts meet the contract of [sort_values] *)

Section InsertionSort.

Variable before : Row -> Row -> bool.

Hypothesis before_true : forall x y, before x y = true -> score_ge x y.
Hypothesis before_false : forall x y, before x y = false -> score_ge y x.

Lemma insert_row_perm (x : Row) (l : list Row) :
  Permutation (insert_row before x l) (x :: l).
Proof.
  induction l as [|y t IH]; simpl; [reflexivity|].
  destruct (before x y); [reflexivity|].
  rewrite IH. apply perm_swap.
Qed.

Lemma insertion_sort_perm (l : list Row) :
  Permutation (insertion_sort before l) l.
Proof.
  induction l as [|x t IH]; simpl; [reflexivity|].
  rewrite insert_row_perm. now apply perm_skip.
Qed.

Lemma insert_row_sorted (x : Row) (l : list Row) :
  StronglySorted score_ge l -> StronglySorted score_ge (insert_row before x l).
Proof.
  induction 1 as [|y t Hs IH Hall]; simpl.
  - repeat constructor.
  - destruct (before x y) eqn:E.
    + apply before_true in E. constructor.
      * constructor; assumption.
      * constructor; [exact E|].
        rewrite Forall_forall in *. intros z Hz.
        specialize (Hall z Hz). unfold score_ge in *. lra.
    + apply before_false in E. constructor; [exact IH|].
      rewrite Forall_forall in *. intros z Hz.
      apply (Permutation_in _ (insert_row_perm x t)) in Hz.
      destruct Hz as [<- | Hz]; [exact E | auto].
Qed.

Lemma insertion_sort_sorted (l : list Row) :
  StronglySorted score_ge (insertion_sort before l).
Proof.
  induction l as [|x t IH]; simpl; [constructor|].
  now apply insert_row_sorted.
Qed.

End InsertionSort.

Lemma stable_sort_values_perm (l : list Row) :
  Permutation (stable_sort_values l) l.
Proof. apply insertion_sort_perm. Qed.

Lemma stable_sort_values_sorted (l : list Row) :
  StronglySorted score_ge (stable_sort_values l).
Proof.
  apply insertion_sort_sorted; intros x y H; unfold score_ge.
  - now apply Qle_bool_iff.
  - destruct (Qle_bool (score y) (score x)) eqn:E; [discriminate|].
    assert (~ score y <= score x) by (rewrite <- Qle_bool_iff; congruence).
    lra.
Qed.

Lemma reversing_sort_values_perm (l : list Row) :
  Permutation (reversing_sort_values l) l.
Proof. apply insertion_sort_perm. Qed.

Lemma reversing_sort_values_sorted (l : list Row) :
  StronglySorted score_ge (reversing_sort_values l).
Proof.
  apply insertion_sort_sorted; intros x y H; unfold score_ge.
  - apply Qgt_bool_true in H. lra.
  - now apply Qgt_bool_false in H.
Qed.

(** ** The claims on sample inputs *)

Lemma select_no_engine pow sort spec g total_kw :
  estimate_total_power_kw pow spec = Ok (PyFloat total_kw) ->
  (1 <= shafts spec)%Z ->
  filter (engine_passes spec
            (total_kw * (1 + power_margin spec) / inject_Z (shafts spec)))
    (ENGINE_CATALOG g) = [] ->
  exists df,
    fst (select_propulsion pow sort spec g)
    = Ok (df, total_kw, total_kw * (1 + power_margin spec),
          total_kw * (1 + power_margin spec) / inject_Z (shafts spec),
          choose_target_prop_rpm spec).
Proof.
  intros Ht Hs Hf.
  unfold select_propulsion, bindM, lift, ret, read_engines, read_gearboxes.
  rewrite Ht. cbn [as_float]. unfold py_div.
  rewrite (shafts_nonzero _ Hs). cbv beta iota zeta. rewrite Hf.
  eexists. reflexivity.
Qed.

Lemma over_budget_filter spec req (l : list Engine) :
  Forall (fun e => budget_usd spec < price_usd_est e) l ->
  filter (engine_passes spec req) l = [].
Proof.
  induction 1 as [|e t He Ht IH]; simpl; [reflexivity|].
  destruct (engine_passes spec req e) eqn:E; [exfalso | exact IH].
  apply engine_passes_iff in E. destruct E as (_ & _ & _ & _ & E). lra.
Qed.




(** C6 on the shipped engines: from scenario A at 100 kW to the budget of
    scenario C at 200 kW the filtered set does not grow, and an engine on
    every limit of scenario A passes. *)
Lemma tighter_constraints_filter_fewer_witness :
  (lower (fuel scenario_c) = lower (fuel scenario_a)
   /\ budget_usd scenario_c <= budget_usd scenario_a
   /\ max_engine_length_mm scenario_c <= max_engine_length_mm scenario_a
   /\ max_engine_weight_kg scenario_c <= max_engine_weight_kg scenario_a
   /\ 100 <= 200)
  /\ (List.length (filter (engine_passes scenario_c 200)
                     (ENGINE_CATALOG shipped))
      <= List.length (filter (engine_passes scenario_a 100)
                        (ENGINE_CATALOG shipped)))%nat
  /\ engine_passes scenario_a 324 boundary_engine = true.
Proof.
  assert (Hb : budget_usd scenario_c <= budget_usd scenario_a)
    by (simpl; lra).
  assert (Hl : max_engine_length_mm scenario_c <= max_engine_length_mm scenario_a)
    by (simpl; lra).
  assert (Hw : max_engine_weight_kg scenario_c <= max_engine_weight_kg scenario_a)
    by (simpl; lra).
  assert (Hr : 100 <= 200) by lra.
  destruct (tighter_constraints_filter_fewer (ENGINE_CATALOG shipped)
              scenario_a scenario_c 100 200 eq_refl Hb Hl Hw Hr)
    as (Hlen & _ & _).
  split; [auto 6|]. split; [exact Hlen | reflexivity].
Defined.

(** C7 on an unknown hull class: a desired 800 rpm is returned, and without
    one the heuristic gives 1000 while the power model raises. *)
Lemma target_rpm_override_and_default_witness :
  (desired_prop_rpm hovercraft_spec = Some 800%Z
   /\ choose_target_prop_rpm hovercraft_spec = 800%Z)
  /\ (desired_prop_rpm hovercraft_auto_spec = None
      /\ recognized (lower (hull_type hovercraft_auto_spec)) = false
      /\ estimate_total_power_kw rounded_pow_two_thirds hovercraft_auto_spec
         = Raise ValueError
      /\ choose_target_prop_rpm hovercraft_auto_spec = 1000%Z).
Proof.
  split.
  - split; [reflexivity|].
    exact (proj1 (target_rpm_override_and_default hovercraft_spec)
             800%Z eq_refl).
  - split; [reflexivity|]. split; [reflexivity|]. split; [reflexivity|].
    exact (proj1 (proj2 (target_rpm_override_and_default hovercraft_auto_spec))
             eq_refl eq_refl).
Defined.



(** C3 on scenario A and the shipped catalogs: every ranked row names a
    gearbox of the catalog and carries one of its ratios. *)
Lemma chosen_ratio_nearest_first_witness :
  (forall l, Permutation (stable_sort_values l) l)
  /\ exists rows total_kw total_kw_with_margin per_shaft_kw_req target_prop_rpm,
       fst (select_propulsion rounded_pow_two_thirds stable_sort_values
              scenario_a shipped)
       = Ok (Ranked rows, total_kw, total_kw_with_margin, per_shaft_kw_req,
             target_prop_rpm)
       /\ rows <> []
       /\ Forall (fun r =>
            exists gb, In gb (GEARBOX_CATALOG shipped)
                       /\ gearbox_name r = gb_name gb
                       /\ In (gear_ratio r) (ratios gb)) rows.
Proof.
  split; [exact stable_sort_values_perm|].
  destruct (fst (select_propulsion rounded_pow_two_thirds stable_sort_values
                   scenario_a shipped))
    as [[[[[[s t p h | s h | rows] a] b] c] d] | e | ] eqn:E;
    try (vm_compute in E; discriminate E).
  exists rows, a, b, c, d. split; [reflexivity|]. split.
  - pose proof E as E'. vm_compute in E'. injection E' as <- _ _ _ _.
    discriminate.
  - apply Forall_forall. intros r Hr.
    destruct (proj1 (chosen_ratio_nearest_first rounded_pow_two_thirds
                       stable_sort_values stable_sort_values_perm scenario_a
                       shipped rows a b c d E) r Hr)
      as (en & gb & _ & _ & Hgb & _ & _ & Hname & Hin & _).
    exists gb. auto.
Defined.



(** ** Further properties of the engine *)

(** *** Hull class normalisation *)

Lemma lower_ascii_idem (c : ascii) : lower_ascii (lower_ascii c) = lower_ascii c.
Proof.
  destruct c as [[] [] [] [] [] [] [] []]; reflexivity.
Qed.

Lemma lower_idem (s : string) : lower (lower s) = lower s.
Proof.
  induction s as [|c t IH]; simpl; [reflexivity|].
  now rewrite lower_ascii_idem, IH.
Qed.

Lemma lstrip_idem (s : string) : lstrip (lstrip s) = lstrip s.
Proof.
  induction s as [|c t IH]; simpl; [reflexivity|].
  destruct (is_space c) eqn:E; [exact IH|]. simpl. now rewrite E.
Qed.

Lemma rstrip_idem (s : string) : rstrip (rstrip s) = rstrip s.
Proof.
  induction s as [|c t IH]; simpl; [reflexivity|].
  destruct (rstrip t) as [|d u] eqn:Et.
  - destruct (is_space c) eqn:E; simpl; [reflexivity|]. now rewrite E.
  - change (rstrip (String c (String d u)) = String c (String d u)).
    simpl in IH. simpl. destruct (rstrip u) as [|d' u'] eqn:Eu.
    + destruct (is_space d) eqn:Ed; [discriminate IH|].
      injection IH as ->. reflexivity.
    + injection IH as ->. reflexivity.
Qed.

(** Stripping the right end leaves a left end that is already stripped. *)
Lemma lstrip_rstrip_lstrip (s : string) :
  lstrip (rstrip (lstrip s)) = rstrip (lstrip s).
Proof.
  induction s as [|c t IH]; simpl; [reflexivity|].
  destruct (is_space c) eqn:E; [exact IH|].
  simpl. destruct (rstrip t); rewrite ?E; simpl; rewrite E; reflexivity.
Qed.

Lemma strip_idem (s : string) : strip (strip s) = strip s.
Proof.
  unfold strip. now rewrite lstrip_rstrip_lstrip, rstrip_idem.
Qed.

Lemma normalise_idem (h : string) :
  lower (strip (lower (strip h))) = lower (strip h).
Proof.
  now rewrite strip_lower, strip_idem, lower_idem.
Qed.

Lemma estimate_ext pow (spec spec' : BoatSpecs) :
  lower (strip (hull_type spec')) = lower (strip (hull_type spec)) ->
  displacement_tonnes spec' = displacement_tonnes spec ->
  target_speed_kn spec' = target_speed_kn spec ->
  estimate_total_power_kw pow spec' = estimate_total_power_kw pow spec.
Proof.
  intros Hh HD HV. unfold estimate_total_power_kw. now rewrite Hh, HD, HV.
Qed.

(** X1.  The power model reads the hull class through [strip] and [lower]
    only: a hull class stripped, lowercased or both beforehand gives the
    same outcome (figure or [ValueError]); the heuristic is unchanged by a
    hull class lowercased beforehand. *)
Theorem hull_class_prenormalised pow (spec : BoatSpecs) :
  estimate_total_power_kw pow
    (set_hull_type (lower (strip (hull_type spec))) spec)
  = estimate_total_power_kw pow spec
  /\ estimate_total_power_kw pow (set_hull_type (strip (hull_type spec)) spec)
     = estimate_total_power_kw pow spec
  /\ estimate_total_power_kw pow (set_hull_type (lower (hull_type spec)) spec)
     = estimate_total_power_kw pow spec
  /\ choose_target_prop_rpm (set_hull_type (lower (hull_type spec)) spec)
     = choose_target_prop_rpm spec.
Proof.
  repeat split.
  - apply estimate_ext; try reflexivity. simpl. apply normalise_idem.
  - apply estimate_ext; try reflexivity. simpl. now rewrite strip_idem.
  - apply estimate_ext; try reflexivity. simpl.
    now rewrite strip_lower, lower_idem.
  - unfold choose_target_prop_rpm. simpl. now rewrite lower_idem.
Qed.

(** *** The heuristic's table *)

Lemma choose_auto_cases (spec : BoatSpecs) :
  desired_prop_rpm spec = None ->
  let rpm := choose_target_prop_rpm spec in
  (recognized (lower (hull_type spec)) = true
   /\ (rpm = 750 \/ rpm = 900 \/ rpm = 950 \/ rpm = 1100 \/ rpm = 1150
       \/ rpm = 1300)%Z)
  \/ (recognized (lower (hull_type spec)) = false /\ rpm = 1000%Z).
Proof.
  intros Hd. cbv zeta. unfold choose_target_prop_rpm, recognized.
  rewrite Hd. cbv zeta.
  generalize (lower (hull_type spec)) as hull. intros hull.
  destruct (String.eqb hull "displacement") eqn:E1; cbn [orb].
  { left. split; [reflexivity|].
    destruct (Qlt_le_dec (displacement_tonnes spec) 30); auto. }
  destruct (str_in hull semi_names) eqn:E2.
  { left. split; [now rewrite orb_true_r|].
    destruct (Qlt_le_dec (displacement_tonnes spec) 30); auto 10. }
  destruct (String.eqb hull "planing") eqn:E3; cbn [orb].
  { left. split; [reflexivity|].
    destruct (Qlt_le_dec (displacement_tonnes spec) 30); auto 10. }
  right. auto.
Qed.

(** X2.  Without a desired RPM the target is one of the table's values:
    it lies between 750 and 1300, so it is never zero, and it is 1000
    exactly when the lowercased hull class is not a recognized one. *)
Theorem heuristic_target_range (spec : BoatSpecs) :
  desired_prop_rpm spec = None ->
  (750 <= choose_target_prop_rpm spec <= 1300)%Z
  /\ choose_target_prop_rpm spec <> 0%Z
  /\ (choose_target_prop_rpm spec = 1000%Z
      <-> recognized (lower (hull_type spec)) = false).
Proof.
  intros Hd. destruct (choose_auto_cases spec Hd) as [[Hr H] | [Hr H]].
  - split; [lia|]. split; [lia|]. split.
    + intros E. exfalso. lia.
    + intros E. congruence.
  - split; [lia|]. split; [lia|]. split; auto.
Qed.

(** X3.  Without a desired RPM, at one displacement a planing hull turns
    its propeller faster than a semi-displacement hull, and that one faster
    than a displacement hull; and for one hull class a heavier boat never
    gets a higher target than a lighter one. *)
Theorem heuristic_target_order (spec spec' : BoatSpecs) :
  desired_prop_rpm spec = None ->
  desired_prop_rpm spec' = None ->
  (choose_target_prop_rpm (set_hull_type "displacement" spec)
   < choose_target_prop_rpm (set_hull_type "semi-displacement" spec)
   < choose_target_prop_rpm (set_hull_type "planing" spec))%Z
  /\ (hull_type spec' = hull_type spec ->
      displacement_tonnes spec <= displacement_tonnes spec' ->
      (choose_target_prop_rpm spec' <= choose_target_prop_rpm spec)%Z).
Proof.
  intros Hd Hd'. split.
  - unfold choose_target_prop_rpm. simpl. rewrite Hd.
    destruct (Qlt_le_dec (displacement_tonnes spec) 30); lia.
  - intros Hh HD. unfold choose_target_prop_rpm. rewrite Hd, Hd', Hh.
    cbv zeta.
    destruct (Qlt_le_dec (displacement_tonnes spec) 30) as [H | H];
      destruct (Qlt_le_dec (displacement_tonnes spec') 30) as [H' | H'];
      try lra;
      destruct (String.eqb _ "displacement"); try lia;
      destruct (str_in _ semi_names); try lia;
      destruct (String.eqb _ "planing"); lia.
Qed.

(** *** The size of the estimate *)

Lemma hp_disp_positive_base pow (D V : Q) :
  0 < D -> hp_disp pow D V = PyFloat (pow D * V ^ 3 / 130).
Proof.
  intros HD. unfold hp_disp, py_pow_two_thirds.
  destruct (Qlt_le_dec D 0) as [Hneg | _]; [lra|].
  destruct (Qeq_bool D 0) eqn:E; [|reflexivity].
  apply Qeq_bool_iff in E. lra.
Qed.

Lemma cube_positive (V : Q) : 0 < V -> 0 < V ^ 3.
Proof.
  intros HV. change (V ^ 3) with (V * (V * V)).
  repeat apply Qmult_lt_0_compat; exact HV.
Qed.

Lemma hp_disp_value_positive (p V : Q) : 0 < p -> 0 < V -> 0 < p * V ^ 3 / 130.
Proof.
  intros Hp HV. apply Qlt_shift_div_l; [reflexivity|].
  rewrite Qmult_0_l. apply Qmult_lt_0_compat; [exact Hp|].
  now apply cube_positive.
Qed.

Lemma hp_plan_positive (D V : Q) : 0 < D -> 0 < V -> 0 < hp_plan D V.
Proof.
  intros HD HV. unfold hp_plan. cbv zeta.
  change ((V / 185) ^ 2) with (V / 185 * (V / 185)).
  assert (0 < V / 185).
  { apply Qlt_shift_div_l; [reflexivity | lra]. }
  repeat apply Qmult_lt_0_compat; try assumption; reflexivity.
Qed.

Lemma hp_to_kw_positive (hp : Q) : 0 < hp -> 0 < hp_to_kw hp.
Proof.
  intros H. unfold hp_to_kw. apply Qlt_shift_div_l; [reflexivity | lra].
Qed.

Lemma blend_positive (t d p : Q) :
  0 <= t -> t <= 1 -> 0 < d -> 0 < p -> 0 < (1 - t) * d + t * p.
Proof.
  intros H0 H1 Hd Hp.
  assert (0 <= (1 - t) * d) by (apply Qmult_le_0_compat; lra).
  assert (0 <= t * p) by (apply Qmult_le_0_compat; lra).
  destruct (Qlt_le_dec t 1) as [Hlt | Hge].
  - assert (0 < (1 - t) * d) by (apply Qmult_lt_0_compat; lra). lra.
  - assert (Ht : t == 1) by lra.
    assert (0 < t * p) by (rewrite Ht; lra). lra.
Qed.

Lemma estimate_positive_kw pow (spec : BoatSpecs) :
  recognized (lower (strip (hull_type spec))) = true ->
  0 < displacement_tonnes spec ->
  0 < target_speed_kn spec ->
  0 < pow (displacement_tonnes spec) ->
  exists total_kw,
    estimate_total_power_kw pow spec = Ok (PyFloat total_kw) /\ 0 < total_kw.
Proof.
  intros Hrec HD HV Hpow.
  pose proof (hp_disp_positive_base pow _ (target_speed_kn spec) HD) as Hdisp.
  pose proof (hp_disp_value_positive _ _ Hpow HV) as Hd.
  pose proof (hp_plan_positive _ _ HD HV) as Hp.
  unfold recognized in Hrec. rewrite !orb_true_iff in Hrec.
  destruct Hrec as [[H | H] | H].
  - apply String.eqb_eq in H. rewrite (estimate_displacement _ _ H), Hdisp.
    eexists. split; [reflexivity|]. now apply hp_to_kw_positive.
  - apply String.eqb_eq in H. rewrite (estimate_planing _ _ H).
    eexists. split; [reflexivity|]. now apply hp_to_kw_positive.
  - rewrite (estimate_semi _ _ H), Hdisp.
    eexists. split; [reflexivity|]. apply hp_to_kw_positive.
    destruct (blend_factor_bounds (target_speed_kn spec)).
    now apply blend_positive.
Qed.


Lemma blend_between (t d p : Q) :
  0 <= t -> t <= 1 ->
  Qmin d p <= (1 - t) * d + t * p /\ (1 - t) * d + t * p <= Qmax d p.
Proof.
  intros H0 H1.
  assert (E : (1 - t) * d + t * p == d + t * (p - d)) by ring.
  rewrite E.
  destruct (Qlt_le_dec d p) as [Hlt | Hge].
  - rewrite (Q.min_l d p), (Q.max_r d p) by lra.
    assert (0 <= t * (p - d)) by (apply Qmult_le_0_compat; lra).
    assert (0 <= (1 - t) * (p - d)) by (apply Qmult_le_0_compat; lra).
    assert ((1 - t) * (p - d) == p - d - t * (p - d)) by ring.
    lra.
  - rewrite (Q.min_r d p), (Q.max_l d p) by lra.
    assert (0 <= t * (d - p)) by (apply Qmult_le_0_compat; lra).
    assert (0 <= (1 - t) * (d - p)) by (apply Qmult_le_0_compat; lra).
    assert (t * (d - p) == - (t * (p - d))) by ring.
    assert ((1 - t) * (d - p) == d - p + t * (p - d)) by ring.
    lra.
Qed.

Lemma hp_to_kw_scaled (hp : Q) : hp == (134102209 # 100000000) * hp_to_kw hp.
Proof. unfold hp_to_kw. field. Qed.


(** *** The ratio selection at its edges *)

Lemma nearest_ratio_exact (ratio : Q) (options : list Q) (c x : Q) :
  nearest_ratio ratio options = Ok c ->
  In x options -> x == ratio -> c == ratio.
Proof.
  intros Hc Hx Heq.
  destruct (nearest_ratio_spec _ _ _ Hc) as (_ & Hmin & _).
  specialize (Hmin x Hx).
  assert (E : Qabs (x - ratio) == 0).
  { assert (E0 : x - ratio == 0) by lra. rewrite E0. reflexivity. }
  rewrite E in Hmin. apply Qabs_Qle_condition in Hmin. lra.
Qed.

(** X6.  [nearest_ratio] raises [ValueError] exactly on an empty list of
    options and returns a ratio on any other; when an option equals the
    ratio asked for, the ratio returned equals it too. *)
Theorem nearest_ratio_edges (ratio : Q) (options : list Q) :
  (nearest_ratio ratio options = Raise ValueError <-> options = [])
  /\ (options <> [] -> exists c, nearest_ratio ratio options = Ok c)
  /\ (forall c x,
        nearest_ratio ratio options = Ok c ->
        In x options -> x == ratio -> c == ratio).
Proof.
  split; [|split].
  - destruct options; simpl; split; intros H;
      try reflexivity; discriminate H.
  - apply nearest_ratio_nonempty.
  - apply nearest_ratio_exact.
Qed.

(** *** The candidate rows and the pairs they come from *)

Lemma pair_row_full spec ps tr ideal e gb r :
  pair_row spec ps tr ideal e gb = Ok r ->
  exists chosen,
    nearest_ratio ideal (ratios gb) = Ok chosen
    /\ ~ chosen == 0 /\ ~ ps == 0 /\ ~ ideal == 0
    /\ row_names r = pair_names (e, gb)
    /\ gear_ratio r = chosen
    /\ target_rpm r = tr
    /\ per_shaft_kw_required r = py_round1 ps
    /\ achieved_prop_rpm r = py_round (rated_rpm e / chosen)
    /\ power_margin_pct r = py_round1 (100 * ((power_kw e - ps) / ps))
    /\ price_est_usd r = py_round (price_usd_est e + gb_price gb)
    /\ score r
       = (55 # 100) * Qmin ((power_kw e - ps) / ps) 1
         - (35 # 100) * (Qabs (chosen - ideal) / ideal)
         - (10 # 100)
           * ((price_usd_est e + gb_price gb) / Qmax (budget_usd spec) 1).
Proof.
  unfold pair_row. cbv zeta. intros H.
  apply bind_ok in H. destruct H as (chosen & Hc & H).
  apply bind_ok in H. destruct H as (ach & Hach & H).
  apply bind_ok in H. destruct H as (margin & Hm & H).
  apply bind_ok in H. destruct H as (err & Herr & H).
  apply py_div_ok in Hach. destruct Hach as [Hc0 ->].
  apply py_div_ok in Hm. destruct Hm as [Hps ->].
  apply py_div_ok in Herr. destruct Herr as [Hi ->].
  injection H as <-. exists chosen. cbn. auto 15.
Qed.

Lemma gearbox_loop_names spec ps tr ideal e gbs rows :
  gearbox_loop spec ps tr ideal e gbs = Ok rows ->
  map row_names rows
  = map pair_names
      (map (pair e) (filter (fun gb => negb (gearbox_skipped e gb)) gbs)).
Proof.
  revert rows. induction gbs as [|gb rest IH]; simpl; intros rows H.
  - injection H as <-. reflexivity.
  - destruct (gearbox_skipped e gb) eqn:Hs; simpl.
    + now apply IH.
    + apply bind_ok in H. destruct H as (r0 & Hr0 & H).
      apply bind_ok in H. destruct H as (rs & Hrs & H).
      injection H as <-. simpl. rewrite (IH _ Hrs).
      apply pair_row_full in Hr0.
      destruct Hr0 as (c & _ & _ & _ & _ & Hn & _). now rewrite Hn.
Qed.

Lemma engine_loop_names spec ps tr gbs es rows :
  engine_loop spec ps tr gbs es = Ok rows ->
  map row_names rows = map pair_names (surviving_pairs es gbs).
Proof.
  revert rows. induction es as [|e rest IH]; simpl; intros rows H.
  - injection H as <-. reflexivity.
  - apply bind_ok in H. destruct H as (ideal & Hi & H).
    apply bind_ok in H. destruct H as (rs & Hrs & H).
    apply bind_ok in H. destruct H as (more & Hmore & H).
    injection H as <-. rewrite !map_app.
    now rewrite (gearbox_loop_names _ _ _ _ _ _ _ Hrs), (IH _ Hmore).
Qed.

Lemma filter_length_bound {A : Type} (f : A -> bool) (l : list A) :
  (List.length (filter f l) <= List.length l)%nat.
Proof.
  induction l as [|x t IH]; simpl; [lia|]. destruct (f x); simpl; lia.
Qed.

Lemma surviving_pairs_length (es : list Engine) (gbs : list Gearbox) :
  (List.length (surviving_pairs es gbs) <= List.length es * List.length gbs)%nat.
Proof.
  unfold surviving_pairs. induction es as [|e rest IH]; simpl; [lia|].
  rewrite length_app, length_map.
  pose proof (filter_length_bound
                (fun gb => negb (gearbox_skipped e gb)) gbs) as Hf.
  lia.
Qed.

Section Ranking.

Variable pow_two_thirds : Q -> Q.
Variable sort_values : list Row -> list Row.

Hypothesis sort_values_perm : forall l, Permutation (sort_values l) l.
Hypothesis sort_values_sorted : forall l, StronglySorted score_ge (sort_values l).

Abbreviation select := (select_propulsion pow_two_thirds sort_values).

(** X7.  The ranked frame has one row for each pair of a filtered engine
    and a gearbox that can take it, neither more nor fewer: the rows are
    those pairs, enumerated engines first and gearboxes within an engine,
    in some order.  So the frame is never empty and never longer than the
    product of the two catalog sizes. *)
Theorem ranked_rows_are_surviving_pairs (spec : BoatSpecs) (g : Globals)
    (rows : list Row) (total_kw total_kw_with_margin per_shaft_kw_req : Q)
    (target_prop_rpm : Z) :
  fst (select spec g)
  = Ok (Ranked rows, total_kw, total_kw_with_margin, per_shaft_kw_req,
        target_prop_rpm) ->
  let pairs :=
    surviving_pairs
      (filter (engine_passes spec per_shaft_kw_req) (ENGINE_CATALOG g))
      (GEARBOX_CATALOG g) in
  Permutation (map row_names rows) (map pair_names pairs)
  /\ List.length rows = List.length pairs
  /\ rows <> []
  /\ (List.length rows
      <= List.length (ENGINE_CATALOG g) * List.length (GEARBOX_CATALOG g))%nat.
Proof using sort_values_perm.
  intros H. cbv zeta. apply select_inv in H.
  destruct H as (_ & _ & _ & _ & _ & [[_ Hdf] | (_ & cand & Hl & Hc)]);
    [discriminate|].
  destruct Hc as [[_ Hdf] | [Hne Hdf]]; [discriminate|].
  injection Hdf as ->.
  pose proof (engine_loop_names _ _ _ _ _ _ Hl) as Hn.
  pose proof (sort_values_perm cand) as Hp.
  assert (Hlen : List.length (sort_values cand)
                 = List.length (surviving_pairs
                     (filter (engine_passes spec per_shaft_kw_req)
                        (ENGINE_CATALOG g)) (GEARBOX_CATALOG g))).
  { rewrite (Permutation_length Hp).
    rewrite <- (length_map row_names cand), Hn. apply length_map. }
  split; [|split; [|split]].
  - rewrite <- Hn. now apply Permutation_map.
  - exact Hlen.
  - intros E. apply Hne. rewrite E in Hp.
    apply Permutation_nil in Hp. exact Hp.
  - rewrite Hlen.
    pose proof (surviving_pairs_length
                  (filter (engine_passes spec per_shaft_kw_req)
                     (ENGINE_CATALOG g)) (GEARBOX_CATALOG g)) as H1.
    pose proof (filter_length_bound (engine_passes spec per_shaft_kw_req)
                  (ENGINE_CATALOG g)) as H2.
    nia.
Qed.

Lemma In_skipn {A : Type} (n : nat) (l : list A) (y : A) :
  In y (skipn n l) -> In y l.
Proof.
  intros H. rewrite <- (firstn_skipn n l). apply in_or_app. now right.
Qed.

Lemma StronglySorted_firstn_skipn {A : Type} (R : A -> A -> Prop) (n : nat) :
  forall l, StronglySorted R l ->
    forall x y, In x (firstn n l) -> In y (skipn n l) -> R x y.
Proof.
  induction n as [|n IH]; intros l Hs x y Hx Hy; [destruct Hx|].
  destruct Hs as [|a t Hs Hall]; [destruct Hx|].
  simpl in Hx, Hy. destruct Hx as [<- | Hx].
  - rewrite Forall_forall in Hall. apply Hall. eapply In_skipn. exact Hy.
  - apply (IH t Hs); assumption.
Qed.


Lemma inject_Z_nonneg (z : Z) : (0 <= z)%Z -> 0 <= inject_Z z.
Proof. intros H. unfold Qle. simpl. lia. Qed.

Lemma py_round_nonneg (x : Q) : 0 <= x -> (0 <= py_round x)%Z.
Proof.
  intros Hx. unfold py_round. cbv zeta.
  assert (Hf : (0 <= Qfloor x)%Z).
  { pose proof (Qlt_floor x) as H.
    assert (H0 : 0 < inject_Z (Qfloor x + 1)) by lra.
    unfold Qlt in H0. simpl in H0. lia. }
  destruct (Qcompare _ _); [destruct (Z.even _)| |]; lia.
Qed.

Lemma py_round1_nonneg (x : Q) : 0 <= x -> 0 <= py_round1 x.
Proof.
  intros Hx. unfold py_round1.
  apply Qle_shift_div_l; [reflexivity|]. rewrite Qmult_0_l.
  apply inject_Z_nonneg, py_round_nonneg. lra.
Qed.

Lemma margin_nonneg (kw ps : Q) : 0 < ps -> ps <= kw -> 0 <= (kw - ps) / ps.
Proof.
  intros Hps Hle. apply Qle_shift_div_l; [exact Hps | lra].
Qed.

(** X9.  When the per-shaft requirement is positive, every ranked row shows
    a power margin that is not negative, and carries the target RPM and the
    rounded per-shaft requirement that the call returns beside the frame. *)
Theorem ranked_rows_margin_nonnegative (spec : BoatSpecs) (g : Globals)
    (rows : list Row) (total_kw total_kw_with_margin per_shaft_kw_req : Q)
    (target_prop_rpm : Z) :
  fst (select spec g)
  = Ok (Ranked rows, total_kw, total_kw_with_margin, per_shaft_kw_req,
        target_prop_rpm) ->
  0 < per_shaft_kw_req ->
  forall r, In r rows ->
    0 <= power_margin_pct r
    /\ target_rpm r = target_prop_rpm
    /\ per_shaft_kw_required r = py_round1 per_shaft_kw_req.
Proof using sort_values_perm.
  intros H Hps r Hr. apply select_inv in H.
  destruct H as (_ & _ & _ & _ & _ & [[_ Hdf] | (_ & cand & Hl & Hc)]);
    [discriminate|].
  destruct Hc as [[_ Hdf] | [_ Hdf]]; [discriminate|].
  injection Hdf as ->.
  apply (Permutation_in _ (sort_values_perm cand)) in Hr.
  destruct (engine_loop_In _ _ _ _ _ _ Hl r Hr)
    as (e & gb & He & _ & _ & _ & Hp).
  apply filter_In in He. destruct He as [_ Hpass].
  apply engine_passes_iff in Hpass. destruct Hpass as (_ & Hkw & _).
  apply pair_row_full in Hp.
  destruct Hp as (c & _ & _ & _ & _ & _ & _ & Ht & Hreq & _ & Hm & _).
  split; [|auto]. rewrite Hm. apply py_round1_nonneg.
  assert (0 <= (power_kw e - per_shaft_kw_req) / per_shaft_kw_req)
    by now apply margin_nonneg.
  lra.
Qed.

(** X10.  With a positive target RPM, positive rated speeds and prices that
    are not negative, no ranked row scores above 0.55. *)
Theorem ranked_score_at_most_055 (spec : BoatSpecs) (g : Globals)
    (rows : list Row) (total_kw total_kw_with_margin per_shaft_kw_req : Q)
    (target_prop_rpm : Z) :
  fst (select spec g)
  = Ok (Ranked rows, total_kw, total_kw_with_margin, per_shaft_kw_req,
        target_prop_rpm) ->
  (0 < target_prop_rpm)%Z ->
  (forall e, In e (ENGINE_CATALOG g) ->
             0 < rated_rpm e /\ 0 <= price_usd_est e) ->
  (forall gb, In gb (GEARBOX_CATALOG g) -> 0 <= gb_price gb) ->
  forall r, In r rows -> score r <= 55 # 100.
Proof using sort_values_perm.
  intros H Htr Heng Hgbx r Hr. apply select_inv in H.
  destruct H as (_ & _ & _ & _ & _ & [[_ Hdf] | (_ & cand & Hl & Hc)]);
    [discriminate|].
  destruct Hc as [[_ Hdf] | [_ Hdf]]; [discriminate|].
  injection Hdf as ->.
  apply (Permutation_in _ (sort_values_perm cand)) in Hr.
  destruct (engine_loop_In _ _ _ _ _ _ Hl r Hr)
    as (e & gb & He & Hgb & _ & _ & Hp).
  apply filter_In in He. destruct He as [He _].
  destruct (Heng e He) as [Hrpm Hprice]. specialize (Hgbx gb Hgb).
  apply pair_row_full in Hp.
  destruct Hp as (c & _ & _ & _ & _ & _ & _ & _ & _ & _ & _ & _ & Hs).
  rewrite Hs.
  set (ideal := rated_rpm e / inject_Z target_prop_rpm).
  assert (Hi : 0 < ideal).
  { apply Qlt_shift_div_l; [|lra]. unfold Qlt. simpl. lia. }
  assert (Herr : 0 <= Qabs (c - ideal) / ideal).
  { apply Qle_shift_div_l; [exact Hi|]. rewrite Qmult_0_l. apply Qabs_nonneg. }
  assert (Hmax : 0 < Qmax (budget_usd spec) 1).
  { pose proof (Q.le_max_r (budget_usd spec) 1). lra. }
  assert (Hpr : 0 <= (price_usd_est e + gb_price gb) / Qmax (budget_usd spec) 1).
  { apply Qle_shift_div_l; [exact Hmax | lra]. }
  pose proof (Q.le_min_r ((power_kw e - per_shaft_kw_req) / per_shaft_kw_req) 1).
  lra.
Qed.

(** *** When the call returns and when it raises *)

Lemma Qdiv_nonzero (a b : Q) : ~ a == 0 -> ~ b == 0 -> ~ a / b == 0.
Proof.
  intros Ha Hb E. apply Ha.
  assert (H : a == a / b * b) by (field; exact Hb).
  rewrite H, E. ring.
Qed.

Lemma Qdiv_nonzero_inv (a b : Q) : ~ a / b == 0 -> ~ a == 0 /\ ~ b == 0.
Proof.
  intros H. split; intros E; apply H.
  - rewrite E. unfold Qdiv. ring.
  - unfold Qdiv. rewrite E. change (/ 0) with 0. ring.
Qed.

Lemma inject_Z_nonzero (z : Z) : z <> 0%Z <-> ~ inject_Z z == 0.
Proof.
  unfold Qeq. simpl. lia.
Qed.

Lemma Qeq_bool_false (a b : Q) : ~ a == b -> Qeq_bool a b = false.
Proof.
  intros H. destruct (Qeq_bool a b) eqn:E; [|reflexivity].
  apply Qeq_bool_iff in E. contradiction.
Qed.

Lemma pair_row_returns spec ps tr ideal e gb :
  ~ ps == 0 -> ~ ideal == 0 ->
  ratios gb <> [] -> (forall x, In x (ratios gb) -> ~ x == 0) ->
  exists r, pair_row spec ps tr ideal e gb = Ok r.
Proof.
  intros Hps Hi Hne Hnz.
  destruct (nearest_ratio_nonempty ideal _ Hne) as [c Hc].
  pose proof (nearest_ratio_spec _ _ _ Hc) as (Hin & _).
  specialize (Hnz c Hin).
  unfold pair_row. cbv zeta. rewrite Hc. cbn [bind]. unfold py_div.
  rewrite (Qeq_bool_false c 0 Hnz), (Qeq_bool_false ps 0 Hps),
    (Qeq_bool_false ideal 0 Hi).
  cbn [bind]. eauto.
Qed.

Lemma gearbox_loop_returns spec ps tr ideal e gbs :
  ~ ps == 0 -> ~ ideal == 0 ->
  (forall gb, In gb gbs ->
     ratios gb <> [] /\ forall x, In x (ratios gb) -> ~ x == 0) ->
  exists rows, gearbox_loop spec ps tr ideal e gbs = Ok rows.
Proof.
  intros Hps Hi. induction gbs as [|gb rest IH]; simpl; intros Hg; [eauto|].
  destruct IH as [rs Hrs]; [intros gb' Hin; apply Hg; now right|].
  destruct (gearbox_skipped e gb); [eauto|].
  destruct (Hg gb (or_introl eq_refl)) as [Hne Hnz].
  destruct (pair_row_returns spec ps tr ideal e gb Hps Hi Hne Hnz) as [r Hr].
  rewrite Hr, Hrs. cbn [bind]. eauto.
Qed.

Lemma engine_loop_returns spec ps tr gbs es :
  ~ ps == 0 -> tr <> 0%Z ->
  (forall e, In e es -> ~ rated_rpm e == 0) ->
  (forall gb, In gb gbs ->
     ratios gb <> [] /\ forall x, In x (ratios gb) -> ~ x == 0) ->
  exists rows, engine_loop spec ps tr gbs es = Ok rows.
Proof.
  intros Hps Htr He Hg. apply inject_Z_nonzero in Htr.
  induction es as [|e rest IH]; simpl; [eauto|].
  destruct IH as [more Hmore]; [intros e' Hin; apply He; now right|].
  unfold py_div at 1. rewrite (Qeq_bool_false _ 0 Htr). cbn [bind].
  assert (Hi : ~ rated_rpm e / inject_Z tr == 0).
  { apply Qdiv_nonzero; [apply He; now left | exact Htr]. }
  destruct (gearbox_loop_returns spec ps tr _ e gbs Hps Hi Hg) as [rs Hrs].
  rewrite Hrs, Hmore. cbn [bind]. eauto.
Qed.

Lemma select_returns_on (spec : BoatSpecs) (g : Globals) (total_kw : Q) :
  estimate_total_power_kw pow_two_thirds spec = Ok (PyFloat total_kw) ->
  shafts spec <> 0%Z ->
  ~ total_kw * (1 + power_margin spec) == 0 ->
  choose_target_prop_rpm spec <> 0%Z ->
  usable_catalogs g ->
  exists df,
    fst (select spec g)
    = Ok (df, total_kw, total_kw * (1 + power_margin spec),
          total_kw * (1 + power_margin spec) / inject_Z (shafts spec),
          choose_target_prop_rpm spec).
Proof using.
  intros Ht Hs Hm Htr [Heng Hgbx].
  apply inject_Z_nonzero in Hs.
  assert (Hps : ~ total_kw * (1 + power_margin spec) / inject_Z (shafts spec)
                  == 0) by now apply Qdiv_nonzero.
  unfold select_propulsion, bindM, lift, ret, read_engines, read_gearboxes.
  rewrite Ht. cbn [as_float]. unfold py_div.
  rewrite (Qeq_bool_false _ 0 Hs). cbv beta iota zeta.
  destruct (filter _ (ENGINE_CATALOG g)) as [|e0 es] eqn:Hf;
    [eexists; reflexivity|].
  cbv beta iota zeta.
  destruct (engine_loop_returns spec _ (choose_target_prop_rpm spec)
              (GEARBOX_CATALOG g) (e0 :: es) Hps Htr) as [rows Hrows].
  - intros e He. apply Heng.
    assert (Hin : In e (filter
                     (engine_passes spec
                        (total_kw * (1 + power_margin spec)
                         / inject_Z (shafts spec))) (ENGINE_CATALOG g)))
      by (rewrite Hf; exact He).
    apply filter_In in Hin. tauto.
  - exact Hgbx.
  - fold (py_div) in Hrows. rewrite Hrows.
    destruct rows; eexists; reflexivity.
Qed.

(** X11.  [select_propulsion] returns, with the four figures, whenever the
    power model gives a float, the shaft count and the target RPM are not
    zero, the power with margin is not zero, and in the catalogs rated
    speeds and gear ratios are not zero and every gearbox lists a ratio. *)
Theorem select_returns (spec : BoatSpecs) (g : Globals) (total_kw : Q) :
  estimate_total_power_kw pow_two_thirds spec = Ok (PyFloat total_kw) ->
  shafts spec <> 0%Z ->
  ~ total_kw * (1 + power_margin spec) == 0 ->
  choose_target_prop_rpm spec <> 0%Z ->
  usable_catalogs g ->
  exists df,
    fst (select spec g)
    = Ok (df, total_kw, total_kw * (1 + power_margin spec),
          total_kw * (1 + power_margin spec) / inject_Z (shafts spec),
          choose_target_prop_rpm spec).
Proof using.
  exact (select_returns_on spec g total_kw).
Qed.

(** X12.  Once the power model has given a float: a shaft count of zero
    raises [ZeroDivisionError]; with shafts, a target RPM of zero raises it
    exactly when some engine passes the filter. *)
Theorem zero_shafts_or_rpm_raise (spec : BoatSpecs) (g : Globals)
    (total_kw : Q) :
  estimate_total_power_kw pow_two_thirds spec = Ok (PyFloat total_kw) ->
  (shafts spec = 0%Z -> fst (select spec g) = Raise ZeroDivisionError)
  /\ (shafts spec <> 0%Z ->
      choose_target_prop_rpm spec = 0%Z ->
      (fst (select spec g) = Raise ZeroDivisionError
       <-> filter (engine_passes spec
                     (total_kw * (1 + power_margin spec)
                      / inject_Z (shafts spec)))
             (ENGINE_CATALOG g) <> [])).
Proof using.
  intros Ht. split.
  - intros Hs.
    unfold select_propulsion, bindM, lift, ret, read_engines, read_gearboxes.
    rewrite Ht, Hs. reflexivity.
  - intros Hs Htr. apply inject_Z_nonzero in Hs.
    unfold select_propulsion, bindM, lift, ret, read_engines, read_gearboxes.
    rewrite Ht. cbn [as_float]. unfold py_div at 1.
    rewrite (Qeq_bool_false _ 0 Hs). cbv beta iota zeta.
    destruct (filter _ (ENGINE_CATALOG g)) as [|e0 es] eqn:Hf.
    + cbv beta iota zeta. split; [discriminate | congruence].
    + cbv beta iota zeta. rewrite Htr. split; [discriminate|].
      intros _. reflexivity.
Qed.

(** X13.  When [select_propulsion] returns, every pair of a filtered engine
    and a gearbox that can take it was computed without error: the gearbox
    lists a ratio, the ratio chosen, the per-shaft requirement, the target
    RPM and the engine's rated speed are not zero.  A gearbox without ratios
    that can take a filtered engine therefore keeps the call from
    returning. *)
Theorem returns_only_on_computable_pairs (spec : BoatSpecs) (g : Globals)
    (df : DataFrame) (total_kw total_kw_with_margin per_shaft_kw_req : Q)
    (target_prop_rpm : Z) :
  fst (select spec g)
  = Ok (df, total_kw, total_kw_with_margin, per_shaft_kw_req, target_prop_rpm) ->
  forall e gb,
    In e (ENGINE_CATALOG g) ->
    engine_passes spec per_shaft_kw_req e = true ->
    In gb (GEARBOX_CATALOG g) ->
    gearbox_skipped e gb = false ->
    ratios gb <> []
    /\ target_prop_rpm <> 0%Z
    /\ ~ per_shaft_kw_req == 0
    /\ ~ rated_rpm e == 0
    /\ exists chosen,
         nearest_ratio (rated_rpm e / inject_Z target_prop_rpm) (ratios gb)
         = Ok chosen
         /\ ~ chosen == 0.
Proof using.
  intros H e gb He Hpass Hgb Hk. apply select_inv in H.
  assert (Hf : In e (filter (engine_passes spec per_shaft_kw_req)
                       (ENGINE_CATALOG g))) by (apply filter_In; auto).
  destruct H as (_ & _ & _ & _ & _ & [[Hnil _] | (_ & cand & Hl & _)]).
  { rewrite Hnil in Hf. destruct Hf. }
  destruct (engine_loop_complete _ _ _ _ _ _ Hl e gb Hf Hgb Hk)
    as (r & _ & Hp).
  apply pair_row_full in Hp.
  destruct Hp as (c & Hc & Hc0 & Hps & Hi & _).
  apply Qdiv_nonzero_inv in Hi. destruct Hi as [Hrpm Htr].
  apply inject_Z_nonzero in Htr.
  repeat split; try assumption.
  - intros E. rewrite E in Hc. discriminate Hc.
  - exists c. auto.
Qed.

End Ranking.

(** *** The form in front of the engine *)

Lemma shipped_usable : usable_catalogs shipped.
Proof.
  split.
  - intros e He. simpl in He.
    repeat (destruct He as [<- | He]; [intros E; discriminate E|]).
    destruct He.
  - intros gb Hgb. simpl in Hgb.
    repeat (destruct Hgb as [<- | Hgb];
            [split; [discriminate|];
             intros x Hx; simpl in Hx;
             repeat (destruct Hx as [<- | Hx]; [intros E; discriminate E|]);
             destruct Hx|]).
    destruct Hgb.
Qed.

Lemma shipped_positive :
  (forall e, In e (ENGINE_CATALOG shipped) ->
             0 < rated_rpm e /\ 0 <= price_usd_est e)
  /\ (forall gb, In gb (GEARBOX_CATALOG shipped) -> 0 <= gb_price gb).
Proof.
  split.
  - intros e He. simpl in He.
    repeat (destruct He as [<- | He];
            [split; [reflexivity | unfold Qle; simpl; lia]|]).
    destruct He.
  - intros gb Hgb. simpl in Hgb.
    repeat (destruct Hgb as [<- | Hgb]; [unfold Qle; simpl; lia|]).
    destruct Hgb.
Qed.

Lemma form_hull_recognized (h : string) :
  In h ["displacement"; "semi-displacement"; "planing"] ->
  recognized (lower (strip h)) = true /\ recognized (lower h) = true.
Proof.
  intros [<- | [<- | [<- | []]]]; split; reflexivity.
Qed.


(** ** The further properties on sample inputs *)

(** X2 on scenario A: the heuristic gives 1100 rpm. *)
Lemma heuristic_target_range_witness :
  desired_prop_rpm scenario_a = None
  /\ choose_target_prop_rpm scenario_a = 1100%Z
  /\ (750 <= choose_target_prop_rpm scenario_a <= 1300)%Z.
Proof.
  split; [reflexivity|]. split; [reflexivity|].
  exact (proj1 (heuristic_target_range scenario_a eq_refl)).
Defined.

(** X3 on scenario A and the same boat at 40 tonnes. *)
Lemma heuristic_target_order_witness :
  (desired_prop_rpm scenario_a = None /\ desired_prop_rpm heavy_spec = None
   /\ hull_type heavy_spec = hull_type scenario_a
   /\ displacement_tonnes scenario_a <= displacement_tonnes heavy_spec)
  /\ (choose_target_prop_rpm heavy_spec <= choose_target_prop_rpm scenario_a)%Z
  /\ choose_target_prop_rpm heavy_spec = 950%Z.
Proof.
  assert (HD : displacement_tonnes scenario_a <= displacement_tonnes heavy_spec)
    by (simpl; lra).
  split; [auto|]. split; [|reflexivity].
  exact (proj2 (heuristic_target_order scenario_a heavy_spec eq_refl eq_refl)
           eq_refl HD).
Defined.



(** X7 on scenario A: 15 rows for 15 pairs, of 8 engines and 3 gearboxes. *)
Lemma ranked_rows_are_surviving_pairs_witness :
  (forall l, Permutation (stable_sort_values l) l)
  /\ exists rows total_kw total_kw_with_margin per_shaft_kw_req target_prop_rpm,
       fst (select_propulsion rounded_pow_two_thirds stable_sort_values
              scenario_a shipped)
       = Ok (Ranked rows, total_kw, total_kw_with_margin, per_shaft_kw_req,
             target_prop_rpm)
       /\ List.length rows
          = List.length
              (surviving_pairs
                 (filter (engine_passes scenario_a per_shaft_kw_req)
                    (ENGINE_CATALOG shipped)) (GEARBOX_CATALOG shipped))
       /\ List.length rows = 15%nat.
Proof.
  split; [exact stable_sort_values_perm|].
  scenario_a_ranked E.
  exists rows, a, b, c, d. split; [reflexivity|]. split.
  - exact (proj1 (proj2 (ranked_rows_are_surviving_pairs
                           rounded_pow_two_thirds stable_sort_values
                           stable_sort_values_perm scenario_a shipped
                           rows a b c d E))).
  - pose proof E as E'. vm_compute in E'. injection E' as <- _ _ _ _.
    reflexivity.
Defined.


(** X9 on scenario A. *)
Lemma ranked_rows_margin_nonnegative_witness :
  (forall l, Permutation (stable_sort_values l) l)
  /\ exists rows total_kw total_kw_with_margin per_shaft_kw_req target_prop_rpm,
       fst (select_propulsion rounded_pow_two_thirds stable_sort_values
              scenario_a shipped)
       = Ok (Ranked rows, total_kw, total_kw_with_margin, per_shaft_kw_req,
             target_prop_rpm)
       /\ 0 < per_shaft_kw_req
       /\ rows <> []
       /\ Forall (fun r => 0 <= power_margin_pct r
                           /\ target_rpm r = target_prop_rpm) rows.
Proof.
  split; [exact stable_sort_values_perm|].
  scenario_a_ranked E.
  assert (Hc : 0 < c /\ rows <> []).
  { pose proof E as E'. vm_compute in E'. injection E' as <- _ _ <- _.
    split; [reflexivity | discriminate]. }
  destruct Hc as [Hc Hne].
  exists rows, a, b, c, d. split; [reflexivity|].
  split; [exact Hc|]. split; [exact Hne|].
  apply Forall_forall. intros r Hr.
  destruct (ranked_rows_margin_nonnegative rounded_pow_two_thirds
              stable_sort_values stable_sort_values_perm scenario_a shipped
              rows a b c d E Hc r Hr) as (Hm & Ht & _).
  auto.
Defined.

(** X10 on scenario A. *)
Lemma ranked_score_at_most_055_witness :
  (forall l, Permutation (stable_sort_values l) l)
  /\ exists rows total_kw total_kw_with_margin per_shaft_kw_req target_prop_rpm,
       fst (select_propulsion rounded_pow_two_thirds stable_sort_values
              scenario_a shipped)
       = Ok (Ranked rows, total_kw, total_kw_with_margin, per_shaft_kw_req,
             target_prop_rpm)
       /\ (0 < target_prop_rpm)%Z
       /\ rows <> []
       /\ Forall (fun r => score r <= 55 # 100) rows.
Proof.
  split; [exact stable_sort_values_perm|].
  scenario_a_ranked E.
  assert (Hd : (0 < d)%Z /\ rows <> []).
  { pose proof E as E'. vm_compute in E'. injection E' as <- _ _ _ <-.
    split; [reflexivity | discriminate]. }
  destruct Hd as [Hd Hne].
  exists rows, a, b, c, d. split; [reflexivity|].
  split; [exact Hd|]. split; [exact Hne|].
  apply Forall_forall. intros r Hr.
  exact (ranked_score_at_most_055 rounded_pow_two_thirds stable_sort_values
           stable_sort_values_perm scenario_a shipped rows a b c d E Hd
           (proj1 shipped_positive) (proj2 shipped_positive) r Hr).
Defined.

(** X11 on scenario A and the shipped catalogs. *)
Lemma select_returns_witness :
  (shafts scenario_a <> 0%Z
   /\ choose_target_prop_rpm scenario_a <> 0%Z
   /\ usable_catalogs shipped)
  /\ exists df total_kw,
       estimate_total_power_kw rounded_pow_two_thirds scenario_a
       = Ok (PyFloat total_kw)
       /\ ~ total_kw * (1 + power_margin scenario_a) == 0
       /\ fst (select_propulsion rounded_pow_two_thirds stable_sort_values
                 scenario_a shipped)
          = Ok (df, total_kw, total_kw * (1 + power_margin scenario_a),
                total_kw * (1 + power_margin scenario_a)
                / inject_Z (shafts scenario_a),
                choose_target_prop_rpm scenario_a).
Proof.
  assert (Hs : shafts scenario_a <> 0%Z) by discriminate.
  assert (Htr : choose_target_prop_rpm scenario_a <> 0%Z) by discriminate.
  split; [split; [exact Hs | split; [exact Htr | exact shipped_usable]]|].
  destruct (estimate_total_power_kw rounded_pow_two_thirds scenario_a)
    as [[total|]| |] eqn:Ht;
    try (vm_compute in Ht; discriminate Ht).
  assert (Hm : ~ total * (1 + power_margin scenario_a) == 0).
  { pose proof Ht as Ht'. vm_compute in Ht'. injection Ht' as <-.
    intros E. vm_compute in E. discriminate E. }
  destruct (select_returns rounded_pow_two_thirds stable_sort_values
              scenario_a shipped total Ht Hs Hm Htr shipped_usable)
    as [df Hdf].
  exists df, total. auto.
Defined.

(** X12 on scenario A without a shaft, and on a desired 0 rpm with the
    shipped catalogs: both raise [ZeroDivisionError]. *)
Lemma zero_shafts_or_rpm_raise_witness :
  (shafts no_shaft_spec = 0%Z
   /\ fst (select_propulsion rounded_pow_two_thirds stable_sort_values
             no_shaft_spec shipped) = Raise ZeroDivisionError)
  /\ (shafts zero_rpm_spec <> 0%Z
      /\ choose_target_prop_rpm zero_rpm_spec = 0%Z
      /\ fst (select_propulsion rounded_pow_two_thirds stable_sort_values
                zero_rpm_spec shipped) = Raise ZeroDivisionError).
Proof.
  split.
  - split; [reflexivity|].
    destruct (estimate_total_power_kw rounded_pow_two_thirds no_shaft_spec)
      as [[total|]| |] eqn:Ht;
      try (vm_compute in Ht; discriminate Ht).
    exact (proj1 (zero_shafts_or_rpm_raise rounded_pow_two_thirds
                    stable_sort_values no_shaft_spec shipped total Ht)
             eq_refl).
  - assert (Hs : shafts zero_rpm_spec <> 0%Z) by discriminate.
    split; [exact Hs|]. split; [reflexivity|].
    destruct (estimate_total_power_kw rounded_pow_two_thirds zero_rpm_spec)
      as [[total|]| |] eqn:Ht;
      try (vm_compute in Ht; discriminate Ht).
    apply (proj2 (zero_shafts_or_rpm_raise rounded_pow_two_thirds
                    stable_sort_values zero_rpm_spec shipped total Ht)
             Hs eq_refl).
    vm_compute in Ht. injection Ht as <-.
    intros Hnil. apply (f_equal (@List.length Engine)) in Hnil.
    vm_compute in Hnil. discriminate Hnil.
Defined.

(** X13 on scenario A: the call returns, so the pair of the Yanmar engine
    and "ZF 45A" was computed; with a gearbox that lists no ratio the same
    call raises [ValueError]. *)
Lemma returns_only_on_computable_pairs_witness :
  (exists df total_kw total_kw_with_margin per_shaft_kw_req target_prop_rpm,
     fst (select_propulsion rounded_pow_two_thirds stable_sort_values
            scenario_a shipped)
     = Ok (df, total_kw, total_kw_with_margin, per_shaft_kw_req,
           target_prop_rpm)
     /\ target_prop_rpm <> 0%Z
     /\ ~ per_shaft_kw_req == 0)
  /\ fst (select_propulsion rounded_pow_two_thirds stable_sort_values
            scenario_a no_ratio_globals) = Raise ValueError.
Proof.
  split; [|vm_compute; reflexivity].
  destruct (fst (select_propulsion rounded_pow_two_thirds stable_sort_values
                   scenario_a shipped))
    as [[[[[df a] b] c] d] | ? | ] eqn:E;
    try (vm_compute in E; discriminate E).
  exists df, a, b, c, d. split; [reflexivity|].
  set (e := engine "6LY-440" "Yanmar" 324 3300 620 "diesel" 1100 650 820 52000).
  set (gb := gearbox "ZF 45A" [3 # 2; 7 # 4; 2; 5 # 2; 3] 600 3500 18000).
  assert (He : In e (ENGINE_CATALOG shipped)) by (simpl; auto 10).
  assert (Hgb : In gb (GEARBOX_CATALOG shipped)) by (simpl; auto).
  assert (Hpass : engine_passes scenario_a c e = true).
  { pose proof E as E'. vm_compute in E'. injection E' as _ _ _ <- _.
    vm_compute. reflexivity. }
  destruct (returns_only_on_computable_pairs rounded_pow_two_thirds
              stable_sort_values scenario_a shipped df a b c d E e gb He Hpass
              Hgb eq_refl) as (_ & Htr & Hps & _).
  auto.
Defined.


(** ** Fuel, exact ratios and heavier boats *)

Lemma pair_row_budget spec spec' ps tr ideal e gb :
  budget_usd spec' = budget_usd spec ->
  pair_row spec' ps tr ideal e gb = pair_row spec ps tr ideal e gb.
Proof.
  intros H. unfold pair_row. now rewrite H.
Qed.

Lemma gearbox_loop_budget spec spec' ps tr ideal e gbs :
  budget_usd spec' = budget_usd spec ->
  gearbox_loop spec' ps tr ideal e gbs = gearbox_loop spec ps tr ideal e gbs.
Proof.
  intros H. induction gbs as [|gb rest IH]; simpl; [reflexivity|].
  now rewrite IH, (pair_row_budget spec spec' _ _ _ _ _ H).
Qed.

Lemma engine_loop_budget spec spec' ps tr gbs es :
  budget_usd spec' = budget_usd spec ->
  engine_loop spec' ps tr gbs es = engine_loop spec ps tr gbs es.
Proof.
  intros H. induction es as [|e rest IH]; simpl; [reflexivity|].
  rewrite IH. destruct (py_div _ _); simpl; try reflexivity.
  now rewrite (gearbox_loop_budget spec spec' _ _ _ _ _ H).
Qed.

(** X15.  The fuel of the specification is compared with the engines' in
    lower case: two specifications that differ in the letter case of the
    fuel alone have the same outcome. *)
Theorem fuel_case_insensitive pow sort (spec : BoatSpecs) (f : string)
    (g : Globals) :
  lower f = lower (fuel spec) ->
  select_propulsion pow sort (set_fuel f spec) g
  = select_propulsion pow sort spec g.
Proof.
  intros Hf.
  assert (Hpass : forall ps,
             filter (engine_passes (set_fuel f spec) ps) (ENGINE_CATALOG g)
             = filter (engine_passes spec ps) (ENGINE_CATALOG g)).
  { intros ps. apply filter_ext. intros e. unfold engine_passes. simpl.
    now rewrite Hf. }
  unfold select_propulsion, bindM, lift, ret, read_engines, read_gearboxes.
  change (estimate_total_power_kw pow (set_fuel f spec))
    with (estimate_total_power_kw pow spec).
  destruct (as_float (estimate_total_power_kw pow spec)) as [total| |];
    cbv beta iota zeta; try reflexivity.
  cbn [set_fuel shafts power_margin].
  destruct (py_div _ _) as [ps| |]; cbv beta iota zeta; try reflexivity.
  rewrite Hpass.
  change (choose_target_prop_rpm (set_fuel f spec))
    with (choose_target_prop_rpm spec).
  destruct (filter _ (ENGINE_CATALOG g)) as [|e0 es];
    cbv beta iota zeta; [reflexivity|].
  rewrite (engine_loop_budget spec (set_fuel f spec)) by reflexivity.
  reflexivity.
Qed.

Lemma py_round_of_integer (x : Q) (z : Z) : x == inject_Z z -> py_round x = z.
Proof.
  intros Hx. unfold py_round. cbv zeta.
  assert (Hf : Qfloor x = z) by (rewrite Hx; apply Qfloor_Z).
  rewrite Hf.
  assert (H0 : x - inject_Z z == 0) by (rewrite Hx; ring).
  assert (Hc : Qcompare (x - inject_Z z) (1 # 2) = Lt)
    by (apply Qlt_alt; rewrite H0; reflexivity).
  now rewrite Hc.
Qed.

Section ExactRatio.

Variable pow_two_thirds : Q -> Q.
Variable sort_values : list Row -> list Row.

Hypothesis sort_values_perm : forall l, Permutation (sort_values l) l.

(** X16.  In a ranked frame, a pair whose gearbox lists the ideal ratio
    (rated speed over target RPM) has a row with that ratio as gear ratio
    and the target RPM as achieved propeller RPM. *)
Theorem listed_ideal_ratio_hits_target (spec : BoatSpecs) (g : Globals)
    (rows : list Row) (total_kw total_kw_with_margin per_shaft_kw_req : Q)
    (target_prop_rpm : Z) :
  fst (select_propulsion pow_two_thirds sort_values spec g)
  = Ok (Ranked rows, total_kw, total_kw_with_margin, per_shaft_kw_req,
        target_prop_rpm) ->
  forall e gb x,
    In e (ENGINE_CATALOG g) ->
    engine_passes spec per_shaft_kw_req e = true ->
    In gb (GEARBOX_CATALOG g) ->
    gearbox_skipped e gb = false ->
    In x (ratios gb) ->
    x == rated_rpm e / inject_Z target_prop_rpm ->
    exists r,
      In r rows
      /\ row_names r = pair_names (e, gb)
      /\ gear_ratio r == x
      /\ achieved_prop_rpm r = target_prop_rpm.
Proof using sort_values_perm.
  intros H e gb x He Hpass Hgb Hk Hx Hideal. apply select_inv in H.
  destruct H as (_ & _ & _ & _ & _ & [[_ Hdf] | (_ & cand & Hl & Hc)]);
    [discriminate|].
  destruct Hc as [[_ Hdf] | [_ Hdf]]; [discriminate|].
  injection Hdf as ->.
  assert (Hf : In e (filter (engine_passes spec per_shaft_kw_req)
                       (ENGINE_CATALOG g))) by (apply filter_In; auto).
  destruct (engine_loop_complete _ _ _ _ _ _ Hl e gb Hf Hgb Hk)
    as (r & Hr & Hp).
  apply pair_row_full in Hp.
  destruct Hp as (c & Hc & Hc0 & _ & Hi & Hn & Hg & _ & _ & Hach & _).
  pose proof (nearest_ratio_exact _ _ _ _ Hc Hx Hideal) as Hcx.
  apply Qdiv_nonzero_inv in Hi. destruct Hi as [_ Htr].
  exists r. split.
  { apply (Permutation_in _ (Permutation_sym (sort_values_perm cand))).
    exact Hr. }
  split; [exact Hn|]. split; [rewrite Hg, Hcx, Hideal; reflexivity|].
  rewrite Hach. apply py_round_of_integer.
  rewrite Hcx. field. split; [exact Htr|].
  intros E. apply Hc0. rewrite Hcx, E. unfold Qdiv. ring.
Qed.

End ExactRatio.

Lemma square_monotone (a b : Q) : 0 <= a -> a <= b -> a ^ 2 <= b ^ 2.
Proof.
  intros Ha Hab. change (a ^ 2) with (a * a). change (b ^ 2) with (b * b).
  assert (H : 0 <= (b - a) * (b + a)) by (apply Qmult_le_0_compat; lra).
  assert (E : (b - a) * (b + a) == b * b - a * a) by ring.
  lra.
Qed.

Lemma product_monotone (a a' b b' : Q) :
  0 <= a -> a <= a' -> 0 <= b -> b <= b' -> a * b <= a' * b'.
Proof.
  intros Ha Haa Hb Hbb.
  assert (H1 : 0 <= (a' - a) * b) by (apply Qmult_le_0_compat; lra).
  assert (H2 : 0 <= a' * (b' - b)) by (apply Qmult_le_0_compat; lra).
  assert (E1 : (a' - a) * b == a' * b - a * b) by ring.
  assert (E2 : a' * (b' - b) == a' * b' - a' * b) by ring.
  lra.
Qed.

Lemma hp_plan_monotone (D D' V V' : Q) :
  0 <= D -> D <= D' -> 0 <= V -> V <= V' -> hp_plan D V <= hp_plan D' V'.
Proof.
  intros HD HDD HV HVV. unfold hp_plan. cbv zeta.
  assert (E : forall v, v / 185 * 185 == v) by (intros v; field).
  pose proof (E V) as EV. pose proof (E V') as EV'.
  assert (H0 : 0 <= V / 185) by lra.
  assert (H1 : V / 185 <= V' / 185) by lra.
  pose proof (square_monotone _ _ H0 H1) as Hsq.
  assert (Hsq0 : 0 <= (V / 185) ^ 2).
  { change ((V / 185) ^ 2) with (V / 185 * (V / 185)).
    now apply Qmult_le_0_compat. }
  apply product_monotone; try assumption; lra.
Qed.

(** X17.  For planing hulls, a boat that is neither lighter nor slower than
    another (both of displacement and speed not negative) is never
    estimated at less power. *)
Theorem planing_estimate_monotone pow (spec spec' : BoatSpecs) :
  lower (strip (hull_type spec)) = "planing" ->
  lower (strip (hull_type spec')) = "planing" ->
  0 <= displacement_tonnes spec ->
  displacement_tonnes spec <= displacement_tonnes spec' ->
  0 <= target_speed_kn spec ->
  target_speed_kn spec <= target_speed_kn spec' ->
  exists kw kw',
    estimate_total_power_kw pow spec = Ok (PyFloat kw)
    /\ estimate_total_power_kw pow spec' = Ok (PyFloat kw')
    /\ kw <= kw'.
Proof.
  intros Hh Hh' HD HDD HV HVV.
  rewrite (estimate_planing pow _ Hh), (estimate_planing pow _ Hh').
  do 2 eexists. split; [reflexivity|]. split; [reflexivity|].
  pose proof (hp_plan_monotone _ _ _ _ HD HDD HV HVV) as Hm.
  pose proof (hp_to_kw_scaled
                (hp_plan (displacement_tonnes spec) (target_speed_kn spec))).
  pose proof (hp_to_kw_scaled
                (hp_plan (displacement_tonnes spec') (target_speed_kn spec'))).
  lra.
Qed.

(** X15 on scenario A with the fuel in capitals. *)
Lemma fuel_case_insensitive_witness :
  lower "DIESEL" = lower (fuel scenario_a)
  /\ select_propulsion rounded_pow_two_thirds stable_sort_values
       (set_fuel "DIESEL" scenario_a) shipped
     = select_propulsion rounded_pow_two_thirds stable_sort_values
         scenario_a shipped.
Proof.
  split; [reflexivity|].
  exact (fuel_case_insensitive rounded_pow_two_thirds stable_sort_values
           scenario_a "DIESEL" shipped eq_refl).
Defined.

(** X16 on a desired 1500 rpm: the 3000 rpm Volvo Penta D8-600 with the
    ratio 2 of "ZF 45A" turns the propeller at 1500 rpm. *)
Lemma listed_ideal_ratio_hits_target_witness :
  (forall l, Permutation (stable_sort_values l) l)
  /\ exists rows total_kw total_kw_with_margin per_shaft_kw_req r,
       fst (select_propulsion rounded_pow_two_thirds stable_sort_values
              desired_1500_spec shipped)
       = Ok (Ranked rows, total_kw, total_kw_with_margin, per_shaft_kw_req,
             1500%Z)
       /\ In r rows
       /\ row_names r = ("Volvo Penta D8-600", "ZF 45A")
       /\ gear_ratio r == 2
       /\ achieved_prop_rpm r = 1500%Z.
Proof.
  split; [exact stable_sort_values_perm|].
  destruct (fst (select_propulsion rounded_pow_two_thirds stable_sort_values
                   desired_1500_spec shipped))
    as [[[[[[? ? ? ? | ? ? | rows] a] b] c] d] | ? | ] eqn:E;
    try (vm_compute in E; discriminate E).
  assert (Hd : d = 1500%Z).
  { pose proof E as E'. vm_compute in E'. injection E' as _ _ _ _ <-.
    reflexivity. }
  subst d.
  set (e := engine "D8-600" "Volvo Penta" 441 3000 1200 "diesel" 1500 850 980
              98000).
  set (gb := gearbox "ZF 45A" [3 # 2; 7 # 4; 2; 5 # 2; 3] 600 3500 18000).
  assert (He : In e (ENGINE_CATALOG shipped)) by (simpl; auto 10).
  assert (Hgb : In gb (GEARBOX_CATALOG shipped)) by (simpl; auto).
  assert (Hpass : engine_passes desired_1500_spec c e = true).
  { pose proof E as E'. vm_compute in E'. injection E' as _ _ _ <-.
    vm_compute. reflexivity. }
  assert (Hx : In 2 (ratios gb)) by (simpl; auto).
  assert (Hideal : 2 == rated_rpm e / inject_Z 1500) by reflexivity.
  destruct (listed_ideal_ratio_hits_target rounded_pow_two_thirds
              stable_sort_values stable_sort_values_perm desired_1500_spec
              shipped rows a b c 1500%Z E e gb 2 He Hpass Hgb eq_refl Hx
              Hideal) as (r & Hr & Hn & Hg & Hach).
  exists rows, a, b, c, r. auto.
Defined.

(** X17 on a planing hull of 25 tonnes at 15 knots and one of 30 tonnes at
    25 knots. *)
Lemma planing_estimate_monotone_witness :
  (lower (strip (hull_type planing_spec)) = "planing"
   /\ lower (strip (hull_type planing_faster_spec)) = "planing"
   /\ 0 <= displacement_tonnes planing_spec
   /\ displacement_tonnes planing_spec
      <= displacement_tonnes planing_faster_spec
   /\ 0 <= target_speed_kn planing_spec
   /\ target_speed_kn planing_spec <= target_speed_kn planing_faster_spec)
  /\ exists kw kw',
       estimate_total_power_kw rounded_pow_two_thirds planing_spec
       = Ok (PyFloat kw)
       /\ estimate_total_power_kw rounded_pow_two_thirds planing_faster_spec
          = Ok (PyFloat kw')
       /\ kw <= kw'.
Proof.
  assert (H1 : 0 <= displacement_tonnes planing_spec)
    by (unfold Qle; simpl; lia).
  assert (H2 : displacement_tonnes planing_spec
               <= displacement_tonnes planing_faster_spec)
    by (unfold Qle; simpl; lia).
  assert (H3 : 0 <= target_speed_kn planing_spec)
    by (unfold Qle; simpl; lia).
  assert (H4 : target_speed_kn planing_spec
               <= target_speed_kn planing_faster_spec)
    by (unfold Qle; simpl; lia).
  split; [auto 10|].
  exact (planing_estimate_monotone rounded_pow_two_thirds planing_spec
           planing_faster_spec eq_refl eq_refl H1 H2 H3 H4).
Defined.
